(** * The camera view of the face filter (src/data.c)

    A shallow embedding of the callbacks of [data.c]: the camera-state
    printer, the preview-resolution chooser, the capturing callback that
    stores a JPEG, the face-detection callback (producer of the shared face
    buffer), the "face detect" button and the preview callback (consumer of
    the buffer, which blanks the face in the frame).

    The callbacks run against global variables and the camera service, so
    they are written in a small monad: a state ([world]), an outcome that
    may be a fault (undefined behaviour of the C program) and a trace of
    the events the properties below speak about (mutex operations, accesses
    to the shared buffer, service calls, messages). Parameters that a
    callback does not use ([user_data], [postview], [thumbnail], the widget
    of a click) are left out. *)

From Stdlib Require Import ZArith Lia Bool List.
From stdpp Require Import base list strings gmap pretty.

Local Open Scope Z_scope.

(** ** The C [int] *)

(** [int] is 32 bits wide on the target; the arithmetic of the callbacks is
    written with the two's-complement wrap-around of the compiled code. *)
Module CInt.

Definition INT_MIN : Z := - 2 ^ 31.
Definition INT_MAX : Z := 2 ^ 31 - 1.

Definition wrap (z : Z) : Z := (z + 2 ^ 31) mod 2 ^ 32 - 2 ^ 31.

Definition add (a b : Z) : Z := wrap (a + b).
Definition mul (a b : Z) : Z := wrap (a * b).

Definition in_range (z : Z) : Prop := INT_MIN <= z <= INT_MAX.

End CInt.

(** ** Platform declarations used by [data.c]

    [camera.h] and [tizen_error.h] belong to the platform, not to the
    repository; the declarations below are the ones [data.c] relies on. *)

(** [camera_state_e]: an enumeration, so a C [int] that may also hold a
    value outside the five enumerators. *)
Definition camera_state_e : Type := Z.
Definition CAMERA_STATE_NONE : camera_state_e := 0.
Definition CAMERA_STATE_CREATED : camera_state_e := 1.
Definition CAMERA_STATE_PREVIEW : camera_state_e := 2.
Definition CAMERA_STATE_CAPTURING : camera_state_e := 3.
Definition CAMERA_STATE_CAPTURED : camera_state_e := 4.

Definition CAMERA_ERROR_NONE : Z := 0.

(** [EBUSY], what [pthread_mutex_trylock] returns on a mutex that is held. *)
Definition EBUSY : Z := 16.

(** [camera_detected_face_s]: six [int] fields. *)
Record camera_detected_face_s : Type := mk_face {
  face_id : Z;
  face_score : Z;
  face_x : Z;
  face_y : Z;
  face_width : Z;
  face_height : Z
}.

(** [camera_preview_data_s], with the planes of [data.double_plane] as byte
    buffers. *)
Record camera_preview_data_s : Type := mk_frame {
  frame_format : Z;
  frame_height : Z;
  frame_width : Z;
  frame_timestamp : Z;
  frame_num_of_planes : Z;
  double_plane_y : list Byte.byte;
  double_plane_uv : list Byte.byte
}.

(** [camera_image_data_s]: [data] is a pointer (NULL is [None]), [size] an
    [unsigned int]. *)
Record camera_image_data_s : Type := mk_image {
  image_data : option (list Byte.byte);
  image_size : Z;
  image_width : Z;
  image_height : Z
}.

(** ** Globals of [data.c] and the state around them *)

Definition BUFLEN : Z := 512.

(** The two flags of [struct _camdata]; its handles to the camera and to the
    widgets carry no data the callbacks compute with. *)
Record camdata : Type := mk_camdata {
  cam_prev : bool;
  face_running : bool
}.

(** What the host answers during one callback: the error codes of the two
    face-detection calls, the clock, and whether [malloc] and [fopen] give
    a non-NULL result. *)
Record platform : Type := mk_platform {
  camera_stop_face_detection_ret : Z;
  camera_start_face_detection_ret : Z;
  time_ret : Z;
  malloc_ok : bool;
  fopen_ok : bool
}.

Record world : Type := mk_world {
  cam_data : camdata;
  camera_directory : option string;
  (** [facelock]: [true] while the mutex is held. *)
  facelock : bool;
  (** [cam_face]: NULL ([None]) or the buffer it points to. *)
  cam_face : option (list camera_detected_face_s);
  cam_face_num : Z;
  (** The files of the device storage, by path. *)
  files : gmap string (list Byte.byte);
  (** The jobs queued by [ecore_job_add (_image_saved, path)]. *)
  jobs : list string;
  host : platform
}.

Definition set_face_running (b : bool) (w : world) : world :=
  mk_world (mk_camdata (cam_prev (cam_data w)) b) (camera_directory w)
           (facelock w) (cam_face w) (cam_face_num w) (files w) (jobs w) (host w).

Definition set_facelock (b : bool) (w : world) : world :=
  mk_world (cam_data w) (camera_directory w) b (cam_face w) (cam_face_num w)
           (files w) (jobs w) (host w).

Definition set_cam_face (p : option (list camera_detected_face_s)) (w : world) : world :=
  mk_world (cam_data w) (camera_directory w) (facelock w) p (cam_face_num w)
           (files w) (jobs w) (host w).

Definition set_cam_face_num (n : Z) (w : world) : world :=
  mk_world (cam_data w) (camera_directory w) (facelock w) (cam_face w) n
           (files w) (jobs w) (host w).

Definition set_files (fs : gmap string (list Byte.byte)) (w : world) : world :=
  mk_world (cam_data w) (camera_directory w) (facelock w) (cam_face w)
           (cam_face_num w) fs (jobs w) (host w).

Definition set_jobs (js : list string) (w : world) : world :=
  mk_world (cam_data w) (camera_directory w) (facelock w) (cam_face w)
           (cam_face_num w) (files w) js (host w).

(** ** Events, outcomes and the monad of the callbacks *)

Inductive event : Type :=
| TryLock (ok : bool)            (* pthread_mutex_trylock (&facelock); ok: it returned 0 *)
| Unlock                         (* pthread_mutex_unlock (&facelock) *)
| ReadFace                       (* a read of cam_face or of a record behind it *)
| ReadNum                        (* a read of cam_face_num *)
| WriteFace (n : Z)              (* n records stored behind cam_face *)
| WriteNum (v : Z)               (* cam_face_num = v *)
| Call (api : string) (r : Z)    (* a call of the camera service and its error code *)
| Log (text : string) (args : list Z).   (* PRINT_MSG, dlog_print *)

Inductive outcome (A : Type) : Type :=
| Done (a : A)
| Fault          (* undefined behaviour: an access through a wild pointer *)
| OutOfFuel.     (* the loop budget of the model ran out *)

Arguments Done {A} a.
Arguments Fault {A}.
Arguments OutOfFuel {A}.

Definition M (A : Type) : Type := world -> outcome A * world * list event.

Definition ret {A} (a : A) : M A := fun w => (Done a, w, []).

Definition bind {A B} (k : A -> M B) (m : M A) : M B :=
  fun w =>
    match m w with
    | (Done a, w1, t1) =>
        match k a w1 with
        | (r, w2, t2) => (r, w2, t1 ++ t2)
        end
    | (Fault, w1, t1) => (Fault, w1, t1)
    | (OutOfFuel, w1, t1) => (OutOfFuel, w1, t1)
    end.

(** stdpp's notations [x ← m; k] and [m;; k] are read in [M]. *)
#[global] Instance M_ret : MRet M := @ret.
#[global] Instance M_bind : MBind M := @bind.

Definition fault {A} : M A := fun w => (Fault, w, []).
Definition out_of_fuel {A} : M A := fun w => (OutOfFuel, w, []).
Definition emit (e : event) : M unit := fun w => (Done tt, w, [e]).
Definition get {A} (f : world -> A) : M A := fun w => (Done (f w), w, []).
Definition modify (f : world -> world) : M unit := fun w => (Done tt, f w, []).

Definition result_of {A} (r : outcome A * world * list event) : outcome A := r.1.1.
Definition world_of {A} (r : outcome A * world * list event) : world := r.1.2.
Definition trace_of {A} (r : outcome A * world * list event) : list event := r.2.

(** *** The mutex *)

Definition pthread_mutex_trylock : M Z :=
  fun w =>
    if facelock w then (Done EBUSY, w, [TryLock false])
    else (Done 0, set_facelock true w, [TryLock true]).

Definition pthread_mutex_unlock : M unit :=
  fun w => (Done tt, set_facelock false w, [Unlock]).

(** *** Accesses to the shared face state *)

(** The value of the pointer [cam_face]. *)
Definition load_cam_face : M (option (list camera_detected_face_s)) :=
  emit ReadFace;; get cam_face.

Definition load_cam_face_num : M Z :=
  emit ReadNum;; get cam_face_num.

Definition store_cam_face_num (v : Z) : M unit :=
  emit (WriteNum v);; modify (set_cam_face_num v).

(** [cam_face->field]: a read through the pointer, of the first record. *)
Definition cam_face_arrow (field : camera_detected_face_s -> Z) : M Z :=
  p ← load_cam_face;
  match p with
  | Some (f :: _) => ret (field f)
  | _ => fault
  end.

(** [memcpy (cam_face, faces, sizeof (camera_detected_face_s) * count)]:
    [count] is converted to [size_t], so a negative one asks for more than
    any buffer holds; reading past [faces] or writing past the buffer
    behind [cam_face], or through NULL, is a fault. *)
Definition memcpy_cam_face (faces : list camera_detected_face_s) (count : Z) : M unit :=
  p ← load_cam_face;
  match p with
  | Some buf =>
      if (0 <=? count) && (count <=? Z.of_nat (length buf))
         && (count <=? Z.of_nat (length faces))
      then
        emit (WriteFace count);;
        modify (set_cam_face
                  (Some (take (Z.to_nat count) faces ++ drop (Z.to_nat count) buf)))
      else fault
  | None => fault
  end.

(** *** Messages and service calls *)

(** [PRINT_MSG] and [DLOG_PRINT_ERROR] are macros of [main.h], which is not
    among the sources; as their uses say, they print a formatted message.
    They are taken to leave the globals of [data.c] alone, like
    [dlog_print]. *)
Definition PRINT_MSG (text : string) (args : list Z) : M unit := emit (Log text args).
Definition dlog_print (text : string) (args : list Z) : M unit := emit (Log text args).
Definition DLOG_PRINT_ERROR (fun_name : string) (error_code : Z) : M unit :=
  emit (Log fun_name [error_code]).

Definition camera_stop_face_detection : M Z :=
  r ← get (fun w => camera_stop_face_detection_ret (host w));
  emit (Call "camera_stop_face_detection" r);;
  ret r.

Definition camera_start_face_detection : M Z :=
  r ← get (fun w => camera_start_face_detection_ret (host w));
  emit (Call "camera_start_face_detection" r);;
  ret r.

(** *** Loops *)

(** [for (int i = i0; cond; i++) body]: the condition is evaluated before
    every round, as in C; [fuel] bounds the number of evaluations of the
    condition. *)
Fixpoint for_loop {A} (fuel : nat) (cond : Z -> M bool) (body : Z -> A -> M A)
    (i : Z) (a : A) : M A :=
  match fuel with
  | O => out_of_fuel
  | S fuel' =>
      c ← cond i;
      if c : bool then
        a' ← body i a;
        for_loop fuel' cond body (CInt.add i 1) a'
      else ret a
  end.

(** ** [_camera_state_to_string] *)

Definition _camera_state_to_string (state : camera_state_e) : string :=
  if state =? CAMERA_STATE_NONE then "CAMERA_STATE_NONE"
  else if state =? CAMERA_STATE_CREATED then "CAMERA_STATE_CREATED"
  else if state =? CAMERA_STATE_PREVIEW then "CAMERA_STATE_PREVIEW"
  else if state =? CAMERA_STATE_CAPTURING then "CAMERA_STATE_CAPTURING"
  else if state =? CAMERA_STATE_CAPTURED then "CAMERA_STATE_CAPTURED"
  else "Unknown".

(** ** The preview resolution *)

(** [user_data] points to an [int [2]] or is NULL. *)
Definition _preview_resolution_cb (width height : Z) (user_data : option (Z * Z))
    : bool * option (Z * Z) :=
  match user_data with
  | Some resolution =>
      if width <? 700 then (true, Some (width, height)) else (true, Some resolution)
  | None => (true, None)
  end.

(** The service's [camera_foreach_supported_preview_resolution]: it calls
    the callback on each supported resolution, in its order, until the
    callback returns [false]. *)
Fixpoint camera_foreach_supported_preview_resolution {U : Type}
    (supported : list (Z * Z)) (callback : Z -> Z -> U -> bool * U) (user_data : U) : U :=
  match supported with
  | [] => user_data
  | (width, height) :: rest =>
      match callback width height user_data with
      | (true, user_data') =>
          camera_foreach_supported_preview_resolution rest callback user_data'
      | (false, user_data') => user_data'
      end
  end.

(** The resolution step of [create_buttons_in_main_window]: the local array
    [resolution] starts with whatever the stack holds. *)
Definition find_preview_resolution (supported : list (Z * Z)) (resolution : Z * Z)
    : option (Z * Z) :=
  camera_foreach_supported_preview_resolution supported _preview_resolution_cb
    (Some resolution).

(** ** [_camera_capturing_cb] *)

(** [malloc]: whether the block is there (non-NULL). *)
Definition malloc : M bool := get (fun w => malloc_ok (host w)).

Definition time : M Z := get (fun w => time_ret (host w)).

(** [snprintf (file_path, BUFLEN, "%s/cam%d.jpg", dir, t)]: at most
    [BUFLEN - 1] characters are stored before the terminator. *)
Definition snprintf_file_path (dir : string) (t : Z) : string :=
  String.substring 0 (Z.to_nat (BUFLEN - 1)) (dir +:+ "/cam" +:+ pretty t +:+ ".jpg").

(** [fopen (path, "w+")]: the stream (named by its path) of a file that is
    created, or emptied when it exists; NULL when the host refuses. *)
Definition fopen_w_plus (path : string) : M (option string) :=
  ok ← get (fun w => fopen_ok (host w));
  if ok : bool then
    modify (fun w => set_files (<[path := []]> (files w)) w);;
    mret (Some path)
  else mret None.

(** [fwrite (data, 1, size, file)] *)
Definition fwrite (data : list Byte.byte) (size : Z) (file : option string) : M unit :=
  match file with
  | Some path =>
      if size <=? Z.of_nat (length data) then
        modify (fun w =>
          set_files (<[path := default [] (files w !! path) ++ take (Z.to_nat size) data]>
                       (files w)) w)
      else fault
  | None => fault
  end.

Definition fclose (file : option string) : M unit :=
  match file with
  | Some _ => mret tt
  | None => fault
  end.

Definition ecore_job_add_image_saved (file_path : string) : M unit :=
  modify (fun w => set_jobs (jobs w ++ [file_path]) w).

(** [snprintf] is given [camera_directory] for its "%s": the C library of
    the platform (glibc) prints a NULL string as "(null)". Writing the path
    into a buffer that [malloc] did not give is a fault. *)
Definition _camera_capturing_cb (image : option camera_image_data_s) : M unit :=
  match image with
  | Some (mk_image (Some data) size _ _) =>
      dlog_print "Writing image to file." [];;
      file_path_ok ← malloc;
      dir ← get camera_directory;
      t ← time;
      if file_path_ok : bool then
        let file_path := snprintf_file_path (default "(null)" dir) (CInt.wrap t) in
        file ← fopen_w_plus file_path;
        fwrite data size file;;
        fclose file;;
        ecore_job_add_image_saved file_path
      else fault
  | _ =>
      dlog_print "An error occurred during taking the photo. The image is NULL." []
  end.

(** ** The "face detect" button *)

Definition __camera_cb_face : M unit :=
  running ← get (fun w => face_running (cam_data w));
  if running : bool then
    error_code ← camera_stop_face_detection;
    if negb (error_code =? CAMERA_ERROR_NONE) then
      DLOG_PRINT_ERROR "camera_stop_face_detection" error_code;;
      PRINT_MSG "Fail to stop face detection" []
    else modify (set_face_running false)
  else
    error_code ← camera_start_face_detection;
    if negb (error_code =? CAMERA_ERROR_NONE) then
      DLOG_PRINT_ERROR "camera_start_face_detection" error_code;;
      PRINT_MSG "Fail to start face detection" []
    else modify (set_face_running true).

(** ** [__camera_preview_cb] *)

(** [frame->data.double_plane.y[index] = value]. A store outside the plane
    is undefined behaviour: the run is marked [Fault] at that store, and
    what the machine does with it and after it is not modelled. *)
Definition store_double_plane_y (frame : camera_preview_data_s) (index : Z)
    (value : Byte.byte) : M camera_preview_data_s :=
  if (0 <=? index) && (index <? Z.of_nat (length (double_plane_y frame))) then
    mret (mk_frame (frame_format frame) (frame_height frame) (frame_width frame)
            (frame_timestamp frame) (frame_num_of_planes frame)
            (<[Z.to_nat index := value]> (double_plane_y frame))
            (double_plane_uv frame))
  else fault.

(** The frame is changed in place; the callback is given the frame and
    returns it as it is afterwards. *)
Definition __camera_preview_cb (fuel : nat) (frame : camera_preview_data_s)
    : M camera_preview_data_s :=
  r ← pthread_mutex_trylock;
  if r =? 0 then
    p ← load_cam_face;
    go ← match p with
         | Some _ =>
             n ← load_cam_face_num;
             if 0 <? n then get (fun w => face_running (cam_data w)) else mret false
         | None => mret false
         end;
    frame' ← (if go : bool then
                x ← cam_face_arrow face_x;
                y ← cam_face_arrow face_y;
                let begin := CInt.add x (CInt.mul y 640) in
                for_loop fuel
                  (fun j => h ← cam_face_arrow face_height; mret (j <? h))
                  (fun j frame =>
                     for_loop fuel
                       (fun i => w ← cam_face_arrow face_width; mret (i <? w))
                       (fun i frame =>
                          let end_ := CInt.add (CInt.add begin i) (CInt.mul j 640) in
                          store_double_plane_y frame end_ Byte.x00)
                       0 frame)
                  0 frame
              else mret frame);
    pthread_mutex_unlock;;
    mret frame'
  else mret frame.

Section FaceBuffer.

(** [MAXIMUM_FACE_NUMBER] is a macro of [data.h]. *)
Variable MAXIMUM_FACE_NUMBER : Z.

(** ** [__camera_face_detected_cb] *)

(** [faces] is a pointer: NULL, or the records it points to. *)
Definition __camera_face_detected_cb (faces : option (list camera_detected_face_s))
    (count : Z) : M unit :=
  if count =? 0 then store_cam_face_num count
  else
    match faces with
    | Some src =>
        if 0 <? count then
          let count := if MAXIMUM_FACE_NUMBER <? count then MAXIMUM_FACE_NUMBER else count in
          r ← pthread_mutex_trylock;
          if r =? 0 then
            memcpy_cam_face src count;;
            store_cam_face_num count;;
            match src with
            | f :: _ => PRINT_MSG "detected: (%d, %d)" [face_x f; face_y f]
            | [] => fault
            end;;
            pthread_mutex_unlock
          else mret tt
        else mret tt
    | None => mret tt
    end.

(** The face-detection step of [create_buttons_in_main_window]: the buffer
    gets [MAXIMUM_FACE_NUMBER] records when the camera supports face
    detection. What [malloc] leaves in them is not specified; they are zero
    here. *)
Definition create_buttons_in_main_window_face_setup (supported : bool) : M unit :=
  modify (set_face_running false);;
  if supported then
    PRINT_MSG "face support" [];;
    ok ← malloc;
    modify (set_cam_face
              (if ok : bool
               then Some (replicate (Z.to_nat MAXIMUM_FACE_NUMBER) (mk_face 0 0 0 0 0 0))
               else None))
  else PRINT_MSG "face NO support" [].

End FaceBuffer.

(** ** Mutual exclusion, read off a trace *)

Definition touches_face_state (e : event) : bool :=
  match e with
  | ReadFace | ReadNum | WriteFace _ | WriteNum _ => true
  | _ => false
  end.

(** Whether the callback holds [facelock] after the events of [t], when
    [held] says whether it held it before. *)
Fixpoint held_after (held : bool) (t : list event) : bool :=
  match t with
  | [] => held
  | TryLock ok :: t' => held_after (held || ok) t'
  | Unlock :: t' => held_after false t'
  | _ :: t' => held_after held t'
  end.

(** Every access to [cam_face] and [cam_face_num] in [t] comes after a
    [pthread_mutex_trylock] that returned 0 and before the unlock that
    follows it. *)
Fixpoint mutually_excluded (held : bool) (t : list event) : bool :=
  match t with
  | [] => true
  | TryLock ok :: t' => mutually_excluded (held || ok) t'
  | Unlock :: t' => mutually_excluded false t'
  | e :: t' => (negb (touches_face_state e) || held) && mutually_excluded held t'
  end.

(** The rectangle of a face in a plane of stride 640. *)
Definition in_face_rect (f : camera_detected_face_s) (k : nat) : Prop :=
  exists i j : Z,
    0 <= i < face_width f /\ 0 <= j < face_height f /\
    k = Z.to_nat (face_x f + face_y f * 640 + i + j * 640).

(** The rectangle lies in the buffer: the corner is at a non-negative
    position and the last pixel is inside. *)
Definition face_rect_fits (f : camera_detected_face_s) (plane : list Byte.byte) : Prop :=
  0 <= face_x f /\ 0 <= face_y f /\
  face_width f <= CInt.INT_MAX /\ face_height f <= CInt.INT_MAX /\
  Z.of_nat (length plane) <= CInt.INT_MAX /\
  (0 < face_width f -> 0 < face_height f ->
   face_x f + face_y f * 640 + (face_width f - 1) + (face_height f - 1) * 640
   < Z.of_nat (length plane)).

(** The calls of the camera service in a trace, with their error codes. *)
Definition service_calls (t : list event) : list (string * Z) :=
  omap (fun e => match e with Call api r => Some (api, r) | _ => None end) t.

(** The sizes, in records, of the copies into the buffer behind [cam_face]. *)
Definition memcpy_counts (t : list event) : list Z :=
  omap (fun e => match e with WriteFace n => Some n | _ => None end) t.

(** [frame'] is [frame] with the bytes of its Y plane at the positions in
    [S] set to zero, and nothing else changed. *)
Definition blanked (S : nat -> Prop) (frame frame' : camera_preview_data_s) : Prop :=
  frame_format frame' = frame_format frame /\
  frame_height frame' = frame_height frame /\
  frame_width frame' = frame_width frame /\
  frame_timestamp frame' = frame_timestamp frame /\
  frame_num_of_planes frame' = frame_num_of_planes frame /\
  double_plane_uv frame' = double_plane_uv frame /\
  length (double_plane_y frame') = length (double_plane_y frame) /\
  (forall k, S k -> double_plane_y frame' !! k = Some Byte.x00) /\
  (forall k, ~ S k -> double_plane_y frame' !! k = double_plane_y frame !! k).

(** No event of [t] is an operation on the mutex. *)
Definition no_lock_ops (t : list event) : Prop :=
  Forall (fun e => match e with TryLock _ | Unlock => False | _ => True end) t.

(** The positions of the rows of the rectangle before row [j]. *)
Definition rows_before (f : camera_detected_face_s) (j : Z) (k : nat) : Prop :=
  exists i' j' : Z,
    0 <= i' < face_width f /\ 0 <= j' < j /\
    k = Z.to_nat (face_x f + face_y f * 640 + i' + j' * 640).

(** The positions of row [j] before column [i]. *)
Definition row_before (f : camera_detected_face_s) (j i : Z) (k : nat) : Prop :=
  exists i' : Z,
    0 <= i' < i /\ k = Z.to_nat (face_x f + face_y f * 640 + i' + j * 640).

(** ** Sample inputs *)

Module Sample.

Definition host : platform := mk_platform 0 0 1700000000 true true.

(** A state with the preview and face detection running. *)
Definition state (lock : bool) (buf : option (list camera_detected_face_s)) (num : Z)
    : world :=
  mk_world (mk_camdata true true) (Some "/opt/usr/media/Camera") lock buf num ∅ [] host.

(** A column of two pixels at the left edge, and one pixel at column 5. *)
Definition face_a : camera_detected_face_s := mk_face 1 90 0 0 1 2.
Definition face_b : camera_detected_face_s := mk_face 2 80 5 0 1 1.
Definition face_c : camera_detected_face_s := mk_face 3 70 9 0 1 1.

Definition no_face : camera_detected_face_s := mk_face 0 0 0 0 0 0.

(** A frame whose Y plane has a full row and two bytes of the next. *)
Definition frame : camera_preview_data_s :=
  mk_frame 0 2 640 0 2 (replicate 642 Byte.xff) (replicate 4 Byte.x80).

Definition jpeg : list Byte.byte := [Byte.xff; Byte.xd8; Byte.xff; Byte.xd9].

Definition image : camera_image_data_s := mk_image (Some jpeg) 4 1 1.

Fixpoint deep_directory (n : nat) : string :=
  match n with
  | O => ""
  | S n' => "/dir" +:+ deep_directory n'
  end.

End Sample.

(** * The other callbacks of [data.c] *)

Definition set_cam_prev (b : bool) (w : world) : world :=
  mk_world (mk_camdata b (face_running (cam_data w))) (camera_directory w)
           (facelock w) (cam_face w) (cam_face_num w) (files w) (jobs w) (host w).

Definition set_camera_directory (d : option string) (w : world) : world :=
  mk_world (cam_data w) d (facelock w) (cam_face w) (cam_face_num w)
           (files w) (jobs w) (host w).

(** A call of a function of the host that returns the code [r]. The codes
    of the calls below are given to the callback that makes them, one per
    call it can make. *)
Definition service_call (api : string) (r : Z) : M Z :=
  emit (Call api r);; mret r.

(** A call on a widget: it returns nothing and touches no global of
    [data.c]; it is put in the trace by name, with its numeric arguments
    (the weights 0.0, 1.0 = [EVAS_HINT_EXPAND] and 2.0 as 0, 1 and 2,
    [EINA_TRUE] and [EINA_FALSE] as 1 and 0). *)
Definition widget_call (name : string) (args : list Z) : M unit :=
  emit (Log name args).

(** ** [_storage_cb] *)

(** [storage_type_e] of the platform's [storage-expand.h]. *)
Definition storage_type_e : Type := Z.
Definition STORAGE_TYPE_INTERNAL : storage_type_e := 0.
Definition STORAGE_ERROR_NONE : Z := 0.

(** A storage as the host reports it to the callback. *)
Record storage_device : Type := mk_storage {
  storage_id : Z;
  storage_type : storage_type_e;
  storage_state : Z;
  storage_path : string
}.

(** [user_data] points to an [int] or is NULL. *)
Definition _storage_cb (storage_id : Z) (type : storage_type_e) (state : Z)
    (path : string) (user_data : option Z) : bool * option Z :=
  if STORAGE_TYPE_INTERNAL =? type then
    (false, match user_data with
            | Some _ => Some storage_id
            | None => None
            end)
  else (true, user_data).

(** The host's [storage_foreach_device_supported]: the callback is called
    on each storage, in the host's order, until it returns [false]. *)
Fixpoint storage_foreach_device_supported {U : Type} (storages : list storage_device)
    (callback : Z -> storage_type_e -> Z -> string -> U -> bool * U) (user_data : U) : U :=
  match storages with
  | [] => user_data
  | d :: rest =>
      match callback (storage_id d) (storage_type d) (storage_state d) (storage_path d)
                     user_data with
      | (true, user_data') => storage_foreach_device_supported rest callback user_data'
      | (false, user_data') => user_data'
      end
  end.

(** ** [__camera_cb_preview] *)

(** The codes of the four calls a click on "Start preview" can make. *)
Record preview_service : Type := mk_preview_service {
  camera_start_preview_ret : Z;
  camera_set_preview_cb_ret : Z;
  camera_unset_preview_cb_ret : Z;
  camera_stop_preview_ret : Z
}.

Definition __camera_cb_preview (svc : preview_service) : M unit :=
  prev ← get (fun w => cam_prev (cam_data w));
  if negb prev then
    widget_call "evas_object_size_hint_weight_set (display)" [1; 2];;
    widget_call "evas_object_size_hint_weight_set (cam_display_box)" [1; 1];;
    widget_call "evas_object_show (cam_display_box)" [];;
    error_code ← service_call "camera_start_preview" (camera_start_preview_ret svc);
    if negb (CAMERA_ERROR_NONE =? error_code) then
      DLOG_PRINT_ERROR "camera_start_preview" error_code;;
      PRINT_MSG "Could not start the camera preview." []
    else
      error_code ← service_call "camera_set_preview_cb" (camera_set_preview_cb_ret svc);
      if negb (error_code =? CAMERA_ERROR_NONE) then
        DLOG_PRINT_ERROR "camera_set_preview_cb" error_code;;
        PRINT_MSG "Could not set preview callback." []
      else
        PRINT_MSG "Camera preview started." [];;
        modify (set_cam_prev true);;
        widget_call "elm_object_text_set (preview_bt, Stop preview)" [];;
        widget_call "elm_object_disabled_set (face_bt)" [0]
  else
    widget_call "evas_object_size_hint_weight_set (display)" [1; 0];;
    widget_call "evas_object_size_hint_weight_set (cam_display_box)" [1; 0];;
    widget_call "evas_object_hide (cam_display_box)" [];;
    error_code ← service_call "camera_unset_preview_cb" (camera_unset_preview_cb_ret svc);
    if negb (CAMERA_ERROR_NONE =? error_code) then
      DLOG_PRINT_ERROR "camera_unset_preview_cb" error_code;;
      PRINT_MSG "Could not unset the camera preview callback." []
    else
      error_code ← service_call "camera_stop_preview" (camera_stop_preview_ret svc);
      if negb (CAMERA_ERROR_NONE =? error_code) then
        DLOG_PRINT_ERROR "camera_stop_preview" error_code;;
        PRINT_MSG "Could not stop the camera preview." []
      else
        PRINT_MSG "Camera preview stopped." [];;
        modify (set_cam_prev false);;
        modify (set_face_running false);;
        widget_call "elm_object_text_set (preview_bt, Start preview)" [];;
        widget_call "elm_object_disabled_set (face_bt)" [1].

(** Whether every call of the click returns [CAMERA_ERROR_NONE]. *)
Definition preview_click_succeeds (svc : preview_service) (w : world) : bool :=
  if cam_prev (cam_data w)
  then (camera_unset_preview_cb_ret svc =? CAMERA_ERROR_NONE)
       && (camera_stop_preview_ret svc =? CAMERA_ERROR_NONE)
  else (camera_start_preview_ret svc =? CAMERA_ERROR_NONE)
       && (camera_set_preview_cb_ret svc =? CAMERA_ERROR_NONE).

(** ** [_camera_completed_cb] *)

(** The callback calls [camera_start_preview] and [camera_stop_preview]
    five times in all; [rets n] is the code of call number [n]. *)
Definition _camera_completed_cb (rets : nat -> Z) : M unit :=
  error_code ← service_call "camera_start_preview" (rets 0%nat);
  (if negb (CAMERA_ERROR_NONE =? error_code) then
     DLOG_PRINT_ERROR "camera_start_preview" error_code;;
     PRINT_MSG "Could not restart the camera preview." []
   else mret tt);;
  error_code ← service_call "camera_stop_preview" (rets 1%nat);
  (if negb (CAMERA_ERROR_NONE =? error_code) then
     DLOG_PRINT_ERROR "camera_stop_preview" error_code;;
     PRINT_MSG "Could not stop the camera preview." []
   else mret tt);;
  error_code ← service_call "camera_start_preview" (rets 2%nat);
  (if negb (CAMERA_ERROR_NONE =? error_code) then
     DLOG_PRINT_ERROR "camera_start_preview" error_code;;
     PRINT_MSG "Could not restart the camera preview." []
   else mret tt);;
  error_code ← service_call "camera_stop_preview" (rets 3%nat);
  (if negb (CAMERA_ERROR_NONE =? error_code) then
     DLOG_PRINT_ERROR "camera_stop_preview" error_code;;
     PRINT_MSG "Could not stop the camera preview." []
   else mret tt);;
  error_code ← service_call "camera_start_preview" (rets 4%nat);
  if negb (CAMERA_ERROR_NONE =? error_code) then
    DLOG_PRINT_ERROR "camera_start_preview" error_code;;
    PRINT_MSG "Could not restart the camera preview." []
  else mret tt.

(** ** [_camera_focus_cb] and [__camera_cb_photo] *)

Section Photo.

(** Two enumerators of the platform's [camera.h]; nothing below depends on
    their values. *)
Variable CAMERA_FOCUS_STATE_FOCUSED : Z.
Variable CAMERA_ERROR_NOT_SUPPORTED : Z.

Definition _camera_focus_cb (state : Z) (camera_start_capture_ret : Z) : M unit :=
  if CAMERA_FOCUS_STATE_FOCUSED =? state then
    error_code ← service_call "camera_start_capture" camera_start_capture_ret;
    if negb (CAMERA_ERROR_NONE =? error_code) then
      DLOG_PRINT_ERROR "camera_start_capture" error_code;;
      PRINT_MSG "Could not start taking a photo." []
    else mret tt
  else mret tt.

Definition __camera_cb_photo (camera_start_focusing_ret camera_start_capture_ret : Z)
    : M unit :=
  error_code ← service_call "camera_start_focusing" camera_start_focusing_ret;
  if negb (CAMERA_ERROR_NONE =? error_code) then
    (if negb (CAMERA_ERROR_NOT_SUPPORTED =? error_code) then
       DLOG_PRINT_ERROR "camera_start_focusing" error_code;;
       PRINT_MSG ("Focusing is not supported on this device."
                  +:+ " The picture will be taken without focusing.") []
     else
       dlog_print ("Focusing is not supported on this device."
                   +:+ " The picture will be taken without focusing.") []);;
    error_code ← service_call "camera_start_capture" camera_start_capture_ret;
    if negb (CAMERA_ERROR_NONE =? error_code) then
      DLOG_PRINT_ERROR "camera_start_capture" error_code;;
      PRINT_MSG "Could not start capturing the photo." []
    else mret tt
  else mret tt.

End Photo.

(** ** [create_buttons_in_main_window] *)

(** What the host answers to the calls of the setup. [setup_state] and
    [setup_stack_resolution] are what the locals [state] and [resolution]
    hold when they are read: what a call stored there, or what the stack
    held. *)
Record setup_service : Type := mk_setup_service {
  setup_camera_create : Z;
  setup_camera_get_state : Z;
  setup_state : camera_state_e;
  setup_camera_attr_enable_tag : Z;
  setup_camera_attr_set_tag_orientation : Z;
  setup_camera_attr_set_image_quality : Z;
  setup_camera_set_display : Z;
  setup_supported_preview_resolutions : list (Z * Z);
  setup_camera_foreach_supported_preview_resolution : Z;
  setup_stack_resolution : Z * Z;
  setup_camera_set_preview_resolution : Z -> Z -> Z;
  setup_camera_set_capture_format : Z;
  setup_camera_set_focus_changed_cb : Z;
  setup_camera_set_preview_cb : Z;
  setup_camera_is_supported_face_detection : bool;
  setup_storages : list storage_device;
  setup_storage_foreach_device_supported : Z;
  setup_storage_get_directory : Z -> Z * string;
  setup_pthread_mutex_init : Z
}.

(** [if (CAMERA_ERROR_NONE != error_code) { DLOG_PRINT_ERROR (...); PRINT_MSG (...); }]
    with no [return]. *)
Definition report_error (api : string) (error_code : Z) (text : string) : M unit :=
  if negb (CAMERA_ERROR_NONE =? error_code) then
    DLOG_PRINT_ERROR api error_code;;
    PRINT_MSG text []
  else mret tt.

Section Setup.

Variable MAXIMUM_FACE_NUMBER : Z.

(** The part of the function after the widgets are made. *)
Definition create_buttons_in_main_window_camera (svc : setup_service) : M unit :=
  error_code ← service_call "camera_create" (setup_camera_create svc);
  if negb (CAMERA_ERROR_NONE =? error_code) then
    DLOG_PRINT_ERROR "camera_create" error_code;;
    PRINT_MSG "Could not create a handle to the camera." []
  else
  error_code ← service_call "camera_get_state" (setup_camera_get_state svc);
  if negb (CAMERA_ERROR_NONE =? error_code)
     || negb (CAMERA_STATE_CREATED =? setup_state svc) then
    dlog_print ("camera_get_state() failed! Error code = %d, state = "
                +:+ _camera_state_to_string (setup_state svc)) [error_code]
  else
  error_code ← service_call "camera_attr_enable_tag" (setup_camera_attr_enable_tag svc);
  report_error "camera_attr_enable_tag" error_code "Could not enable the camera tag.";;
  error_code ← service_call "camera_attr_set_tag_orientation"
                 (setup_camera_attr_set_tag_orientation svc);
  report_error "camera_attr_set_tag_orientation" error_code
    "Could not set the camera image orientation.";;
  error_code ← service_call "camera_attr_set_image_quality"
                 (setup_camera_attr_set_image_quality svc);
  report_error "camera_attr_set_image_quality" error_code
    "Could not set the picture quality.";;
  error_code ← service_call "camera_set_display" (setup_camera_set_display svc);
  if negb (CAMERA_ERROR_NONE =? error_code) then
    DLOG_PRINT_ERROR "camera_set_display" error_code;;
    PRINT_MSG "Could not set the camera display." []
  else
  let resolution :=
    find_preview_resolution (setup_supported_preview_resolutions svc)
      (setup_stack_resolution svc) in
  error_code ← service_call "camera_foreach_supported_preview_resolution"
                 (setup_camera_foreach_supported_preview_resolution svc);
  if negb (CAMERA_ERROR_NONE =? error_code) then
    DLOG_PRINT_ERROR "camera_foreach_supported_preview_resolution" error_code;;
    PRINT_MSG "Could not find the best resolution for the camera preview." []
  else
  match resolution with
  | None => fault
  | Some (width, height) =>
  error_code ← service_call "camera_set_preview_resolution"
                 (setup_camera_set_preview_resolution svc width height);
  (if negb (CAMERA_ERROR_NONE =? error_code) then
     DLOG_PRINT_ERROR "camera_set_preview_resolution" error_code;;
     PRINT_MSG "Could not set the camera preview resolution." []
   else PRINT_MSG "Camera resolution set to: %d %d" [width; height]);;
  error_code ← service_call "camera_set_capture_format" (setup_camera_set_capture_format svc);
  report_error "camera_set_capture_format" error_code "Could not set the capturing format.";;
  error_code ← service_call "camera_set_focus_changed_cb"
                 (setup_camera_set_focus_changed_cb svc);
  report_error "camera_set_focus_changed_cb" error_code
    "Could not set a callback for the focus changes.";;
  error_code ← service_call "camera_set_preview_cb" (setup_camera_set_preview_cb svc);
  if negb (error_code =? CAMERA_ERROR_NONE) then
    DLOG_PRINT_ERROR "camera_set_preview_cb" error_code;;
    PRINT_MSG "Could not set preview callback." []
  else
  create_buttons_in_main_window_face_setup MAXIMUM_FACE_NUMBER
    (setup_camera_is_supported_face_detection svc);;
  let internal_storage_id :=
    storage_foreach_device_supported (setup_storages svc) _storage_cb (Some (-1)) in
  error_code ← service_call "storage_foreach_device_supported"
                 (setup_storage_foreach_device_supported svc);
  if negb (STORAGE_ERROR_NONE =? error_code) then
    DLOG_PRINT_ERROR "storage_foreach_device_supported" error_code;;
    PRINT_MSG "Could not get internal storage id." []
  else
  match internal_storage_id with
  | None => fault
  | Some id =>
  error_code ← service_call "storage_get_directory" (setup_storage_get_directory svc id).1;
  (if negb (STORAGE_ERROR_NONE =? error_code) then
     DLOG_PRINT_ERROR "storage_get_directory" error_code;;
     PRINT_MSG "Could not get the path to the Camera directory." []
   else modify (set_camera_directory (Some (setup_storage_get_directory svc id).2)));;
  r ← service_call "pthread_mutex_init" (setup_pthread_mutex_init svc);
  if negb (r =? 0) then PRINT_MSG "Fail to initiate mutex." []
  else modify (set_facelock false)
  end
  end.

Definition create_buttons_in_main_window (svc : setup_service) : M unit :=
  widget_call "_create_new_cd_display (Camera)" [];;
  widget_call "elm_box_add (display)" [];;
  widget_call "elm_box_horizontal_set (cam_display_box)" [0];;
  widget_call "evas_object_size_hint_align_set (cam_display_box)" [-1; -1];;
  widget_call "evas_object_size_hint_weight_set (cam_display_box)" [1; 1];;
  widget_call "elm_box_pack_end (display, cam_display_box)" [];;
  widget_call "evas_object_show (cam_display_box)" [];;
  widget_call "evas_object_evas_get (cam_display_box)" [];;
  widget_call "evas_object_image_add (evas)" [];;
  widget_call "evas_object_event_callback_add (cam_display_box, _post_render_cb)" [];;
  widget_call "_new_button (display, Start preview, __camera_cb_preview)" [];;
  widget_call "_new_button (display, Face Detect, __camera_cb_face)" [];;
  widget_call "elm_object_disabled_set (face_bt)" [1];;
  create_buttons_in_main_window_camera svc.

End Setup.

(** The body of [__camera_preview_cb] under the lock, from the test of the
    buffer to the unlock. *)
Definition preview_critical_section (fuel : nat) (frame : camera_preview_data_s)
    : M camera_preview_data_s :=
  p ← load_cam_face;
  go ← match p with
       | Some _ =>
           n ← load_cam_face_num;
           if 0 <? n then get (fun w => face_running (cam_data w)) else mret false
       | None => mret false
       end;
  frame' ← (if go : bool then
              x ← cam_face_arrow face_x;
              y ← cam_face_arrow face_y;
              let begin := CInt.add x (CInt.mul y 640) in
              for_loop fuel
                (fun j => h ← cam_face_arrow face_height; mret (j <? h))
                (fun j frame =>
                   for_loop fuel
                     (fun i => w ← cam_face_arrow face_width; mret (i <? w))
                     (fun i frame =>
                        let end_ := CInt.add (CInt.add begin i) (CInt.mul j 640) in
                        store_double_plane_y frame end_ Byte.x00)
                     0 frame)
                0 frame
            else mret frame);
  pthread_mutex_unlock;;
  mret frame'.

(** What is looked at of a run: the outcome, the globals and the calls of
    the host. *)
Definition observe {A} (m : M A) (w : world)
    : outcome A * world * list (string * Z) :=
  (result_of (m w), world_of (m w), service_calls (trace_of (m w))).

(** The observation of a run that starts with one more call. *)
Definition and_call {A} (c : string * Z) (o : outcome A * world * list (string * Z))
    : outcome A * world * list (string * Z) :=
  (o.1.1, o.1.2, c :: o.2).

(** A step that returns, changes no global and calls no service. *)
Definition quiet (m : M unit) (w : world) : Prop :=
  exists t, m w = (Done tt, w, t) /\ service_calls t = [].

(** The six steps of the setup whose failure ends it before the face
    buffer: the handle, its state, the display, the enumeration of the
    resolutions and the registration of the preview callback. *)
Definition setup_reaches_face_detection (svc : setup_service) : bool :=
  (setup_camera_create svc =? CAMERA_ERROR_NONE)
  && (setup_camera_get_state svc =? CAMERA_ERROR_NONE)
  && (setup_state svc =? CAMERA_STATE_CREATED)
  && (setup_camera_set_display svc =? CAMERA_ERROR_NONE)
  && (setup_camera_foreach_supported_preview_resolution svc =? CAMERA_ERROR_NONE)
  && (setup_camera_set_preview_cb svc =? CAMERA_ERROR_NONE).

(** The resolution the setup asks for. *)
Definition setup_resolution (svc : setup_service) : Z * Z :=
  default (setup_stack_resolution svc)
    (last (filter (fun r => r.1 < 700) (setup_supported_preview_resolutions svc))).

(** The storage the setup asks the directory of. *)
Definition setup_storage_id (svc : setup_service) : Z :=
  default (-1)
    (storage_id <$> head (filter (fun d => storage_type d = STORAGE_TYPE_INTERNAL)
                            (setup_storages svc))).

(** The calls of the setup up to the registration of the preview
    callback, when none of them ends it. *)
Definition setup_camera_calls (svc : setup_service) : list (string * Z) :=
  [("camera_create", setup_camera_create svc);
   ("camera_get_state", setup_camera_get_state svc);
   ("camera_attr_enable_tag", setup_camera_attr_enable_tag svc);
   ("camera_attr_set_tag_orientation", setup_camera_attr_set_tag_orientation svc);
   ("camera_attr_set_image_quality", setup_camera_attr_set_image_quality svc);
   ("camera_set_display", setup_camera_set_display svc);
   ("camera_foreach_supported_preview_resolution",
    setup_camera_foreach_supported_preview_resolution svc);
   ("camera_set_preview_resolution",
    setup_camera_set_preview_resolution svc (setup_resolution svc).1 (setup_resolution svc).2);
   ("camera_set_capture_format", setup_camera_set_capture_format svc);
   ("camera_set_focus_changed_cb", setup_camera_set_focus_changed_cb svc);
   ("camera_set_preview_cb", setup_camera_set_preview_cb svc)].

(** ** Inputs for the further properties *)

Module Scenario.

Definition sd_card : storage_device := mk_storage 1 1 0 "/opt/storage/sdcard".
Definition internal_a : storage_device := mk_storage 0 0 0 "/opt/usr/media".
Definition internal_b : storage_device := mk_storage 7 0 0 "/opt/usr/extended".

Definition all_ok : preview_service := mk_preview_service 0 0 0 0.

Definition setup_ok : setup_service :=
  mk_setup_service 0 0 CAMERA_STATE_CREATED 0 0 0 0
    [(320, 240); (640, 480); (1280, 720)] 0 (7, 9) (fun _ _ => 0) 0 0 0 true
    [sd_card; internal_a; internal_b] 0
    (fun id => if id =? 0 then (0, "/opt/usr/media/Camera") else (-22, "")) 0.

(** The globals as the program starts with them. *)
Definition initial : world :=
  mk_world (mk_camdata false false) None false None 0 ∅ [] Sample.host.


Definition image_b : camera_image_data_s :=
  mk_image (Some [Byte.xff; Byte.xd8; Byte.x00; Byte.xff; Byte.xd9]) 5 1 1.

End Scenario.

(** * Properties *)

(** ** The C [int] *)

Lemma wrap_in_range (z : Z) : CInt.in_range z -> CInt.wrap z = z.
Proof.
  unfold CInt.in_range, CInt.INT_MIN, CInt.INT_MAX, CInt.wrap. intros Hz.
  rewrite Z.mod_small; lia.
Qed.

(** ** [_camera_state_to_string] *)

(** C8. The mapping is total; each of the five states of the camera is
    printed as the name of its enumerator, and "Unknown" is printed for the
    other values of the type and for no state of the five. *)
Theorem camera_state_to_string_covers_states :
  _camera_state_to_string CAMERA_STATE_NONE = "CAMERA_STATE_NONE" /\
  _camera_state_to_string CAMERA_STATE_CREATED = "CAMERA_STATE_CREATED" /\
  _camera_state_to_string CAMERA_STATE_PREVIEW = "CAMERA_STATE_PREVIEW" /\
  _camera_state_to_string CAMERA_STATE_CAPTURING = "CAMERA_STATE_CAPTURING" /\
  _camera_state_to_string CAMERA_STATE_CAPTURED = "CAMERA_STATE_CAPTURED" /\
  forall state : camera_state_e,
    _camera_state_to_string state = "Unknown" <->
    ~ In state [CAMERA_STATE_NONE; CAMERA_STATE_CREATED; CAMERA_STATE_PREVIEW;
                CAMERA_STATE_CAPTURING; CAMERA_STATE_CAPTURED].
Proof.
  repeat split; try reflexivity.
  - intros Hs Hin. unfold _camera_state_to_string in Hs. simpl in Hin.
    destruct Hin as [<- | [<- | [<- | [<- | [<- | []]]]]]; discriminate Hs.
  - intros Hnot. unfold _camera_state_to_string.
    repeat match goal with
           | |- context [?a =? ?b] =>
               destruct (Z.eqb_spec a b) as [-> | _];
               [exfalso; apply Hnot; simpl; tauto |]
           end.
    reflexivity.
Qed.

(** ** The preview resolution *)

Lemma foreach_preview_resolution_app (l1 l2 : list (Z * Z)) (ud : option (Z * Z)) :
  camera_foreach_supported_preview_resolution (l1 ++ l2) _preview_resolution_cb ud =
  camera_foreach_supported_preview_resolution l2 _preview_resolution_cb
    (camera_foreach_supported_preview_resolution l1 _preview_resolution_cb ud).
Proof.
  revert ud. induction l1 as [| [w h] l1 IH]; intros ud; simpl; [reflexivity |].
  destruct ud as [r |]; simpl; [destruct (w <? 700) |]; apply IH.
Qed.

Lemma find_preview_resolution_last (supported : list (Z * Z)) (resolution : Z * Z) :
  find_preview_resolution supported resolution =
  Some (default resolution (last (filter (fun r => r.1 < 700) supported))).
Proof.
  unfold find_preview_resolution.
  induction supported as [| [w h] l IH] using rev_ind; [reflexivity |].
  rewrite foreach_preview_resolution_app, IH, filter_app. simpl.
  rewrite filter_cons, filter_nil. simpl.
  destruct (Z.ltb_spec w 700) as [Hlt | Hge].
  - rewrite decide_True by exact Hlt. rewrite last_snoc. reflexivity.
  - rewrite decide_False by lia. rewrite app_nil_r. reflexivity.
Qed.

(** C10. The callback stores a resolution exactly when its width is below
    700 (and the array is there), and always asks for the next one; so the
    array ends with the last supported resolution of width below 700, and
    is left as it was, uninitialised, when there is none. *)
Theorem preview_resolution_is_last_below_700 :
  (forall width height user_data,
     (_preview_resolution_cb width height user_data).1 = true) /\
  (forall width height resolution,
     (_preview_resolution_cb width height (Some resolution)).2 =
     Some (if width <? 700 then (width, height) else resolution)) /\
  (forall supported resolution,
     find_preview_resolution supported resolution =
     Some (default resolution (last (filter (fun r => r.1 < 700) supported)))) /\
  (forall supported resolution,
     Forall (fun r => 700 <= r.1) supported ->
     find_preview_resolution supported resolution = Some resolution).
Proof.
  split; [| split; [| split]].
  - intros w h [r |]; simpl; [destruct (w <? 700) |]; reflexivity.
  - intros w h r. simpl. destruct (w <? 700); reflexivity.
  - apply find_preview_resolution_last.
  - intros supported resolution Hall. rewrite find_preview_resolution_last.
    replace (filter (fun r => r.1 < 700) supported) with (@nil (Z * Z)); [reflexivity |].
    symmetry. induction Hall as [| r l Hr _ IH]; [reflexivity |].
    rewrite filter_cons, decide_False by lia. exact IH.
Qed.

(** ** Running the monad *)

Lemma bind_run {A B} (m : M A) (k : A -> M B) (w : world) :
  (m ≫= k) w =
  match m w with
  | (Done a, w1, t1) => match k a w1 with (r, w2, t2) => (r, w2, t1 ++ t2) end
  | (Fault, w1, t1) => (Fault, w1, t1)
  | (OutOfFuel, w1, t1) => (OutOfFuel, w1, t1)
  end.
Proof. reflexivity. Qed.

Lemma trace_bind {A B} (m : M A) (k : A -> M B) (w : world) :
  trace_of ((m ≫= k) w) =
  match result_of (m w) with
  | Done a => trace_of (m w) ++ trace_of (k a (world_of (m w)))
  | _ => trace_of (m w)
  end.
Proof.
  rewrite bind_run. destruct (m w) as [[[a | |] w1] t1]; try reflexivity.
  unfold trace_of, world_of, result_of. simpl. destruct (k a w1) as [[r w2] t2]. reflexivity.
Qed.

(** The steps a straight-line callback is made of. *)
Ltac run :=
  unfold memcpy_cam_face, cam_face_arrow, store_cam_face_num,
    camera_stop_face_detection, camera_start_face_detection,
    PRINT_MSG, dlog_print, DLOG_PRINT_ERROR, malloc, time in *;
  unfold load_cam_face, load_cam_face_num in *;
  unfold pthread_mutex_trylock, pthread_mutex_unlock, fault, emit, get, modify in *;
  unfold mbind, mret, M_bind, M_ret, bind, ret in *;
  simpl in *.

(** ** The "face detect" button *)

(** C6. A click asks the service to stop face detection when it is running
    and to start it when it is not, with that one call; the flag
    [face_running] is flipped exactly when the call returns
    [CAMERA_ERROR_NONE], it keeps its value on every error, and nothing
    else of the state changes. *)
Theorem camera_cb_face_toggles (w : world) :
  exists (w' : world) (t : list event),
    __camera_cb_face w = (Done tt, w', t) /\
    w' = set_face_running (face_running (cam_data w')) w /\
    if face_running (cam_data w) then
      service_calls t =
        [("camera_stop_face_detection", camera_stop_face_detection_ret (host w))] /\
      (face_running (cam_data w') = false <->
       camera_stop_face_detection_ret (host w) = CAMERA_ERROR_NONE) /\
      (camera_stop_face_detection_ret (host w) <> CAMERA_ERROR_NONE ->
       face_running (cam_data w') = true)
    else
      service_calls t =
        [("camera_start_face_detection", camera_start_face_detection_ret (host w))] /\
      (face_running (cam_data w') = true <->
       camera_start_face_detection_ret (host w) = CAMERA_ERROR_NONE) /\
      (camera_start_face_detection_ret (host w) <> CAMERA_ERROR_NONE ->
       face_running (cam_data w') = false).
Proof.
  unfold __camera_cb_face. destruct w as [[prev running] dir lock buf num fs js h].
  run. unfold set_face_running. simpl.
  destruct running; simpl.
  - destruct (Z.eqb_spec (camera_stop_face_detection_ret h) CAMERA_ERROR_NONE) as [He | Hne];
      simpl; eexists _, _; (split; [reflexivity |]); simpl;
      (split; [reflexivity |]); (split; [reflexivity |]); split;
      try tauto; try congruence; try (split; congruence).
  - destruct (Z.eqb_spec (camera_start_face_detection_ret h) CAMERA_ERROR_NONE) as [He | Hne];
      simpl; eexists _, _; (split; [reflexivity |]); simpl;
      (split; [reflexivity |]); (split; [reflexivity |]); split;
      try tauto; try congruence; try (split; congruence).
Qed.

(** ** [__camera_face_detected_cb] *)

Section FaceBufferProperties.

Variable MAXIMUM_FACE_NUMBER : Z.

Local Abbreviation face_detected_cb := (__camera_face_detected_cb MAXIMUM_FACE_NUMBER).

Lemma face_detected_locked (src : list camera_detected_face_s) (count : Z) (w : world) :
  0 < count -> facelock w = true ->
  face_detected_cb (Some src) count w = (Done tt, w, [TryLock false]).
Proof.
  intros Hc Hl. unfold __camera_face_detected_cb.
  destruct (Z.eqb_spec count 0) as [-> | _]; [lia |].
  destruct (Z.ltb_spec 0 count) as [_ | ?]; [| lia].
  run. rewrite Hl. reflexivity.
Qed.

(** C5. A detection result that arrives while [facelock] is held is
    dropped: the callback returns with [cam_face] and [cam_face_num], and
    the rest of the state, as they were, after the one failed trylock. *)
Theorem face_detected_dropped_when_locked
    (faces : option (list camera_detected_face_s)) (count : Z) (w : world) :
  0 < count -> faces <> None -> facelock w = true ->
  face_detected_cb faces count w = (Done tt, w, [TryLock false]) /\
  cam_face (world_of (face_detected_cb faces count w)) = cam_face w /\
  cam_face_num (world_of (face_detected_cb faces count w)) = cam_face_num w.
Proof.
  intros Hc Hf Hl. destruct faces as [src |]; [| congruence].
  rewrite (face_detected_locked src count w Hc Hl). repeat split.
Qed.

(** C1, the path that breaks it. With [count == 0] the callback stores
    into [cam_face_num] and returns, with no trylock before the store: on
    this path the write to the shared state is not under [facelock]. *)
Theorem face_detected_zero_count_writes_unlocked
    (faces : option (list camera_detected_face_s)) (w : world) :
  face_detected_cb faces 0 w = (Done tt, set_cam_face_num 0 w, [WriteNum 0]) /\
  mutually_excluded false (trace_of (face_detected_cb faces 0 w)) = false.
Proof. split; reflexivity. Qed.

(** X21. On every path of the detection callback but the one of a zero
    count, the accesses to [cam_face] and [cam_face_num] come between a
    trylock that succeeded and its unlock, whatever the outcome. *)
Lemma face_detected_nonzero_mutually_excluded
    (faces : option (list camera_detected_face_s)) (count : Z) (w : world) :
  count <> 0 ->
  mutually_excluded false (trace_of (face_detected_cb faces count w)) = true.
Proof.
  intros Hc. unfold __camera_face_detected_cb.
  destruct (Z.eqb_spec count 0) as [? | _]; [contradiction |].
  destruct faces as [src |]; [| reflexivity].
  destruct (0 <? count); [| reflexivity].
  run. destruct (facelock w); [reflexivity |]. simpl.
  destruct (cam_face w) as [buf |]; [| reflexivity]. simpl.
  match goal with |- context [if ?c then _ else _] => destruct c end; [| reflexivity].
  simpl. destruct src; reflexivity.
Qed.

Lemma face_detected_copies (src buf : list camera_detected_face_s) (count : Z) (w : world) :
  0 < MAXIMUM_FACE_NUMBER -> 0 < count ->
  count <= Z.of_nat (length src) ->
  facelock w = false ->
  cam_face w = Some buf -> MAXIMUM_FACE_NUMBER <= Z.of_nat (length buf) ->
  exists (w' : world) (t : list event),
    face_detected_cb (Some src) count w = (Done tt, w', t) /\
    cam_face w' =
      Some (take (Z.to_nat (Z.min count MAXIMUM_FACE_NUMBER)) src ++
            drop (Z.to_nat (Z.min count MAXIMUM_FACE_NUMBER)) buf) /\
    cam_face_num w' = Z.min count MAXIMUM_FACE_NUMBER /\
    memcpy_counts t = [Z.min count MAXIMUM_FACE_NUMBER] /\
    facelock w' = false.
Proof.
  intros HM Hc Hsrc Hl Hbuf Hlen. unfold __camera_face_detected_cb.
  destruct (Z.eqb_spec count 0) as [? | _]; [lia |].
  destruct (Z.ltb_spec 0 count) as [_ | ?]; [| lia].
  replace (if MAXIMUM_FACE_NUMBER <? count then MAXIMUM_FACE_NUMBER else count)
    with (Z.min count MAXIMUM_FACE_NUMBER)
    by (destruct (Z.ltb_spec MAXIMUM_FACE_NUMBER count); lia).
  set (n := Z.min count MAXIMUM_FACE_NUMBER) in *.
  assert (Hn : 0 < n <= MAXIMUM_FACE_NUMBER /\ n <= count) by (subst n; lia).
  run. rewrite Hl. simpl. rewrite Hbuf. simpl.
  destruct (Z.leb_spec 0 n); [| lia].
  destruct (Z.leb_spec n (Z.of_nat (length buf))); [| lia].
  destruct (Z.leb_spec n (Z.of_nat (length src))); [| lia].
  simpl. destruct src as [| f src']; [simpl in Hsrc; lia |].
  simpl. eexists _, _. split; [reflexivity |]. simpl. repeat split.
Qed.

(** C4, as the code has it. The copy and the store are behind the trylock.
    When it succeeds, the callback copies [min (count, MAXIMUM_FACE_NUMBER)]
    records into the buffer behind [cam_face] and stores that number in
    [cam_face_num]; when it fails, nothing is copied and nothing is stored.
    Either way a copy that is made is of at most [MAXIMUM_FACE_NUMBER]
    records, and the buffer keeps its [MAXIMUM_FACE_NUMBER] records. *)
Theorem face_detected_copy_bounded
    (src buf : list camera_detected_face_s) (count : Z) (w : world) :
  0 < MAXIMUM_FACE_NUMBER -> 0 < count ->
  count <= Z.of_nat (length src) ->
  cam_face w = Some buf -> Z.of_nat (length buf) = MAXIMUM_FACE_NUMBER ->
  exists (w' : world) (t : list event) (buf' : list camera_detected_face_s),
    face_detected_cb (Some src) count w = (Done tt, w', t) /\
    Forall (fun n => n = Z.min count MAXIMUM_FACE_NUMBER /\ n <= MAXIMUM_FACE_NUMBER)
           (memcpy_counts t) /\
    cam_face w' = Some buf' /\
    Z.of_nat (length buf') = MAXIMUM_FACE_NUMBER /\
    if facelock w then
      t = [TryLock false] /\ memcpy_counts t = [] /\ w' = w
    else
      memcpy_counts t = [Z.min count MAXIMUM_FACE_NUMBER] /\
      cam_face_num w' = Z.min count MAXIMUM_FACE_NUMBER /\
      buf' = take (Z.to_nat (Z.min count MAXIMUM_FACE_NUMBER)) src ++
             drop (Z.to_nat (Z.min count MAXIMUM_FACE_NUMBER)) buf.
Proof.
  intros HM Hc Hsrc Hbuf Hlen. destruct (facelock w) eqn:Hl.
  - rewrite (face_detected_locked src count w Hc Hl).
    exists w, [TryLock false], buf. repeat split; try assumption. constructor.
  - destruct (face_detected_copies src buf count w) as (w' & t & Hrun & Hf & Hn & Ht & _);
      try assumption; [lia |].
    eexists w', t, _. rewrite Ht. repeat split; try eassumption.
    + repeat constructor. lia.
    + rewrite length_app, length_take, length_drop. lia.
Qed.

(** C9. The copy goes through [cam_face] with no test of the pointer: once
    the trylock has succeeded, the callback is free of faults exactly when
    [cam_face] points to a buffer, so the buffer has to be there before the
    first detection result. The setup leaves a buffer only when the camera
    reports face detection as supported, and then (when [malloc] gives the
    block) one of [MAXIMUM_FACE_NUMBER] records. The preview callback, which
    tests the pointer, returns the frame as it is when [cam_face] is NULL. *)
Theorem face_detected_safe_iff_allocated :
  (forall (src : list camera_detected_face_s) (count : Z) (w : world),
     0 < MAXIMUM_FACE_NUMBER -> 0 < count ->
     count <= Z.of_nat (length src) ->
     facelock w = false ->
     (forall buf, cam_face w = Some buf -> Z.of_nat (length buf) = MAXIMUM_FACE_NUMBER) ->
     (result_of (face_detected_cb (Some src) count w) = Done tt <-> cam_face w <> None) /\
     (result_of (face_detected_cb (Some src) count w) = Fault <-> cam_face w = None)) /\
  (forall (supported : bool) (w : world),
     cam_face w = None ->
     cam_face (world_of (create_buttons_in_main_window_face_setup
                           MAXIMUM_FACE_NUMBER supported w)) <> None ->
     supported = true) /\
  (forall w : world,
     0 <= MAXIMUM_FACE_NUMBER -> malloc_ok (host w) = true ->
     exists buf,
       cam_face (world_of (create_buttons_in_main_window_face_setup
                             MAXIMUM_FACE_NUMBER true w)) = Some buf /\
       Z.of_nat (length buf) = MAXIMUM_FACE_NUMBER) /\
  (forall (fuel : nat) (frame : camera_preview_data_s) (w : world),
     cam_face w = None ->
     result_of (__camera_preview_cb fuel frame w) = Done frame).
Proof.
  split; [| split; [| split]].
  - intros src count w HM Hc Hsrc Hl Hshape.
    destruct (cam_face w) as [buf |] eqn:Hbuf.
    + destruct (face_detected_copies src buf count w) as (w' & t & Hrun & _);
        try assumption; [rewrite (Hshape buf eq_refl); lia |].
      rewrite Hrun. unfold result_of. simpl. split; split; congruence.
    + assert (Hrun : result_of (face_detected_cb (Some src) count w) = Fault).
      { unfold __camera_face_detected_cb.
        destruct (Z.eqb_spec count 0) as [? | _]; [lia |].
        destruct (Z.ltb_spec 0 count) as [_ | ?]; [| lia].
        run. rewrite Hl. simpl. rewrite Hbuf. reflexivity. }
      rewrite Hrun. split; split; congruence.
  - intros supported w Hnull Hset. destruct supported; [reflexivity |].
    exfalso. apply Hset. unfold create_buttons_in_main_window_face_setup. run. exact Hnull.
  - intros w HM Hmalloc. unfold create_buttons_in_main_window_face_setup. run.
    rewrite Hmalloc. simpl. eexists. split; [reflexivity |].
    rewrite length_replicate. lia.
  - intros fuel frame w Hnull. unfold __camera_preview_cb. run.
    destruct (facelock w); [reflexivity |]. simpl. rewrite Hnull. reflexivity.
Qed.

End FaceBufferProperties.

(** ** [_camera_capturing_cb] *)

Lemma capturing_cb_null (image : option camera_image_data_s) (w : world) :
  (image = None \/ exists img, image = Some img /\ image_data img = None) ->
  exists t : list event, _camera_capturing_cb image w = (Done tt, w, t).
Proof.
  intros [-> | (img & -> & Hdata)].
  - eexists. reflexivity.
  - destruct img as [data size iw ih]. simpl in Hdata. subst data. eexists. reflexivity.
Qed.

Lemma capturing_cb_run (img : camera_image_data_s) (data : list Byte.byte) (w : world) :
  image_data img = Some data ->
  image_size img <= Z.of_nat (length data) ->
  malloc_ok (host w) = true -> fopen_ok (host w) = true ->
  exists t : list event,
    _camera_capturing_cb (Some img) w =
      (Done tt,
       set_jobs (jobs w ++ [snprintf_file_path (default "(null)" (camera_directory w))
                              (CInt.wrap (time_ret (host w)))])
         (set_files
            (<[snprintf_file_path (default "(null)" (camera_directory w))
                 (CInt.wrap (time_ret (host w))) :=
                 take (Z.to_nat (image_size img)) data]> (files w)) w),
       t).
Proof.
  intros Hdata Hsize Hmalloc Hfopen.
  destruct img as [d size iw ih]. simpl in Hdata, Hsize. subst d.
  unfold _camera_capturing_cb, fopen_w_plus, fwrite, fclose, ecore_job_add_image_saved.
  run. rewrite Hmalloc, Hfopen. simpl.
  destruct (Z.leb_spec size (Z.of_nat (length data))); [| lia].
  simpl. eexists. unfold set_jobs, set_files. simpl.
  rewrite lookup_insert_eq, insert_insert_eq. reflexivity.
Qed.

Lemma capturing_cb_writes (img : camera_image_data_s) (data : list Byte.byte)
    (dir : string) (w : world) :
  image_data img = Some data ->
  image_size img <= Z.of_nat (length data) ->
  camera_directory w = Some dir ->
  malloc_ok (host w) = true -> fopen_ok (host w) = true ->
  exists t : list event,
    _camera_capturing_cb (Some img) w =
      (Done tt,
       set_jobs (jobs w ++ [snprintf_file_path dir (CInt.wrap (time_ret (host w)))])
         (set_files
            (<[snprintf_file_path dir (CInt.wrap (time_ret (host w))) :=
                 take (Z.to_nat (image_size img)) data]> (files w)) w),
       t).
Proof.
  intros Hdata Hsize Hdir Hmalloc Hfopen.
  destruct (capturing_cb_run img data w Hdata Hsize Hmalloc Hfopen) as (t & Hrun).
  rewrite Hdir in Hrun. exists t. exact Hrun.
Qed.

Lemma substring_all (s : string) (n : nat) :
  (String.length s <= n)%nat -> String.substring 0 n s = s.
Proof.
  revert n. induction s as [| c s IH]; intros [| n] Hn; simpl in *; try reflexivity; try lia.
  rewrite IH by lia. reflexivity.
Qed.

(** C7, as the code has it. With an image and its data, the callback
    leaves, under the path that [snprintf] stored in its buffer of [BUFLEN]
    characters, a file that holds the first [image->size] bytes of
    [image->data] and nothing else, provided the path buffer and the stream
    were obtained; the path is the camera directory, "/cam", the time as an
    [int] in decimal and ".jpg", cut after [BUFLEN - 1] characters. No
    other file changes. Without an image, or without its data, the files
    are as before. *)
Theorem capturing_cb_stores_image :
  (forall (img : camera_image_data_s) (data : list Byte.byte) (dir : string) (w : world),
     image_data img = Some data ->
     0 <= image_size img <= Z.of_nat (length data) ->
     camera_directory w = Some dir ->
     malloc_ok (host w) = true -> fopen_ok (host w) = true ->
     let full_path := dir +:+ "/cam" +:+ pretty (CInt.wrap (time_ret (host w))) +:+ ".jpg" in
     let file_path := String.substring 0 (Z.to_nat (BUFLEN - 1)) full_path in
     let w' := world_of (_camera_capturing_cb (Some img) w) in
     result_of (_camera_capturing_cb (Some img) w) = Done tt /\
     files w' = <[file_path := take (Z.to_nat (image_size img)) data]> (files w) /\
     Z.of_nat (length (take (Z.to_nat (image_size img)) data)) = image_size img /\
     (Z.of_nat (String.length full_path) < BUFLEN -> file_path = full_path)) /\
  (forall (image : option camera_image_data_s) (w : world),
     (image = None \/ exists img, image = Some img /\ image_data img = None) ->
     result_of (_camera_capturing_cb image w) = Done tt /\
     files (world_of (_camera_capturing_cb image w)) = files w).
Proof.
  split.
  - intros img data dir w Hdata Hsize Hdir Hmalloc Hfopen full_path file_path w'.
    destruct (capturing_cb_writes img data dir w) as (t & Hrun);
      try assumption; [lia |].
    subst w'. rewrite Hrun. unfold result_of, world_of. simpl.
    repeat split.
    + rewrite length_take. lia.
    + intros Hfit. apply substring_all. unfold BUFLEN in *. lia.
  - intros image w Himage. destruct (capturing_cb_null image w Himage) as (t & Hrun).
    rewrite Hrun. split; reflexivity.
Qed.

(** ** Loops *)

(** The invariant rule for a counting loop whose condition is [i < hi] and
    whose rounds leave the globals alone: with fuel for every round, the
    loop ends and the invariant holds at the bound. *)
Lemma for_loop_invariant {A} (w : world) (cond : Z -> M bool) (body : Z -> A -> M A)
    (hi : Z) (Inv : Z -> A -> Prop) :
  hi <= CInt.INT_MAX ->
  (forall i, exists t, cond i w = (Done (i <? hi), w, t)) ->
  (forall i a, 0 <= i < hi -> Inv i a ->
     exists a' t, body i a w = (Done a', w, t) /\ Inv (i + 1) a') ->
  forall (n : nat) (i : Z) (a : A) (fuel : nat),
    0 <= i -> (Z.to_nat (hi - i) <= n)%nat -> (n < fuel)%nat -> Inv i a ->
    exists a' t, for_loop fuel cond body i a w = (Done a', w, t) /\ Inv (Z.max i hi) a'.
Proof.
  intros Hhi Hcond Hbody. induction n as [| n IH]; intros i a fuel Hi Hn Hfuel HInv.
  - destruct fuel as [| fuel]; [lia |]. simpl.
    destruct (Hcond i) as (t & Hc). rewrite bind_run, Hc.
    destruct (Z.ltb_spec i hi) as [Hlt | Hge]; [lia |].
    exists a, (t ++ []). split; [reflexivity |]. rewrite Z.max_l by lia. exact HInv.
  - destruct fuel as [| fuel]; [lia |]. simpl.
    destruct (Hcond i) as (t & Hc). rewrite bind_run, Hc.
    destruct (Z.ltb_spec i hi) as [Hlt | Hge].
    + destruct (Hbody i a (conj Hi Hlt) HInv) as (a1 & t1 & Hb & HInv1).
      rewrite bind_run, Hb.
      assert (Hnext : CInt.add i 1 = i + 1).
      { apply wrap_in_range. unfold CInt.in_range, CInt.INT_MIN, CInt.INT_MAX in *. lia. }
      rewrite Hnext.
      destruct (IH (i + 1) a1 fuel) as (a' & t' & Hrun & HInv'); try lia; [exact HInv1 |].
      rewrite Hrun. exists a', (t ++ t1 ++ t'). split; [reflexivity |].
      replace (Z.max i hi) with (Z.max (i + 1) hi) by lia. exact HInv'.
    + exists a, (t ++ []). split; [reflexivity |]. rewrite Z.max_l by lia. exact HInv.
Qed.

(** Whatever a loop does, its trace is made of the traces of its
    conditions and rounds. *)
Lemma for_loop_no_lock_ops {A} (cond : Z -> M bool) (body : Z -> A -> M A) :
  (forall i w, no_lock_ops (trace_of (cond i w))) ->
  (forall i a w, no_lock_ops (trace_of (body i a w))) ->
  forall (fuel : nat) (i : Z) (a : A) (w : world),
    no_lock_ops (trace_of (for_loop fuel cond body i a w)).
Proof.
  intros Hcond Hbody. induction fuel as [| fuel IH]; intros i a w; simpl.
  - constructor.
  - rewrite trace_bind. specialize (Hcond i w).
    destruct (result_of (cond i w)) as [[|] | |]; try exact Hcond.
    + apply Forall_app. split; [exact Hcond |].
      rewrite trace_bind. specialize (Hbody i a (world_of (cond i w))).
      destruct (result_of (body i a (world_of (cond i w)))); try exact Hbody.
      apply Forall_app. split; [exact Hbody | apply IH].
    + apply Forall_app. split; [exact Hcond | constructor].
Qed.

(** ** [__camera_preview_cb] *)

Lemma cam_face_arrow_run (field : camera_detected_face_s -> Z)
    (f : camera_detected_face_s) (rest : list camera_detected_face_s) (w : world) :
  cam_face w = Some (f :: rest) ->
  cam_face_arrow field w = (Done (field f), w, [ReadFace]).
Proof. intros Hbuf. run. rewrite Hbuf. reflexivity. Qed.

Lemma blanked_nothing (frame : camera_preview_data_s) : blanked (fun _ => False) frame frame.
Proof. unfold blanked. repeat split; tauto. Qed.

Lemma blanked_ext (S S' : nat -> Prop) (frame frame' : camera_preview_data_s) :
  (forall k, S k <-> S' k) -> blanked S frame frame' -> blanked S' frame frame'.
Proof.
  intros HS (H1 & H2 & H3 & H4 & H5 & H6 & H7 & Hin & Hout).
  unfold blanked. repeat split; try assumption.
  - intros k Hk. apply Hin, HS, Hk.
  - intros k Hk. apply Hout. rewrite HS. exact Hk.
Qed.

Lemma store_double_plane_y_blanked (S : nat -> Prop)
    (frame0 frame : camera_preview_data_s) (index : Z) (w : world) :
  blanked S frame0 frame ->
  0 <= index < Z.of_nat (length (double_plane_y frame0)) ->
  exists frame',
    store_double_plane_y frame index Byte.x00 w = (Done frame', w, []) /\
    blanked (fun k => S k \/ k = Z.to_nat index) frame0 frame'.
Proof.
  intros (H1 & H2 & H3 & H4 & H5 & H6 & H7 & Hin & Hout) Hidx.
  unfold store_double_plane_y. rewrite H7.
  destruct (Z.leb_spec 0 index); [| lia].
  destruct (Z.ltb_spec index (Z.of_nat (length (double_plane_y frame0)))); [| lia].
  simpl. eexists. split; [reflexivity |].
  unfold blanked. simpl. rewrite length_insert.
  repeat split; try assumption.
  - intros k [Hk | ->].
    + destruct (decide (k = Z.to_nat index)) as [-> |].
      * apply list_lookup_insert_eq. lia.
      * rewrite list_lookup_insert_ne by congruence. apply Hin, Hk.
    + apply list_lookup_insert_eq. lia.
  - intros k Hk. rewrite list_lookup_insert_ne by (intros <-; apply Hk; right; reflexivity).
    apply Hout. intros HS. apply Hk. left. exact HS.
Qed.

(** Inside a rectangle that fits, the index the code computes in [int]
    arithmetic is the mathematical one, and it is a position of the plane. *)
Lemma pixel_index_exact (f : camera_detected_face_s) (plane : list Byte.byte) (i j : Z) :
  face_rect_fits f plane ->
  0 <= i < face_width f -> 0 <= j < face_height f ->
  CInt.add (CInt.add (CInt.add (face_x f) (CInt.mul (face_y f) 640)) i) (CInt.mul j 640)
  = face_x f + face_y f * 640 + i + j * 640 /\
  0 <= face_x f + face_y f * 640 + i + j * 640 < Z.of_nat (length plane).
Proof.
  intros (Hx & Hy & Hw & Hh & Hlen & Hfit) Hi Hj.
  assert (Hlast := Hfit ltac:(lia) ltac:(lia)).
  unfold CInt.add, CInt.mul.
  unfold CInt.INT_MAX in *.
  rewrite (wrap_in_range (face_y f * 640))
    by (unfold CInt.in_range, CInt.INT_MIN, CInt.INT_MAX; nia).
  rewrite (wrap_in_range (face_x f + face_y f * 640))
    by (unfold CInt.in_range, CInt.INT_MIN, CInt.INT_MAX; nia).
  rewrite (wrap_in_range (face_x f + face_y f * 640 + i))
    by (unfold CInt.in_range, CInt.INT_MIN, CInt.INT_MAX; nia).
  rewrite (wrap_in_range (j * 640))
    by (unfold CInt.in_range, CInt.INT_MIN, CInt.INT_MAX; nia).
  rewrite wrap_in_range
    by (unfold CInt.in_range, CInt.INT_MIN, CInt.INT_MAX; nia).
  split; [reflexivity | nia].
Qed.

Lemma preview_rows (fuel : nat) (frame : camera_preview_data_s)
    (f : camera_detected_face_s) (rest : list camera_detected_face_s) (w : world) :
  cam_face w = Some (f :: rest) ->
  face_rect_fits f (double_plane_y frame) ->
  (Z.to_nat (Z.max (face_width f) (face_height f)) < fuel)%nat ->
  exists frame' t,
    for_loop fuel
      (fun j => h ← cam_face_arrow face_height; mret (j <? h))
      (fun j frame =>
         for_loop fuel
           (fun i => w ← cam_face_arrow face_width; mret (i <? w))
           (fun i frame =>
              let end_ :=
                CInt.add (CInt.add (CInt.add (face_x f) (CInt.mul (face_y f) 640)) i)
                         (CInt.mul j 640) in
              store_double_plane_y frame end_ Byte.x00)
           0 frame)
      0 frame w = (Done frame', w, t) /\
    blanked (in_face_rect f) frame frame'.
Proof.
  intros Hbuf Hfits Hfuel.
  assert (Hbounds : face_width f <= CInt.INT_MAX /\ face_height f <= CInt.INT_MAX)
    by (destruct Hfits as (_ & _ & ? & ? & _); split; assumption).
  destruct Hbounds as [Hw Hh].
  destruct (for_loop_invariant w
              (fun j => h ← cam_face_arrow face_height; mret (j <? h))
              (fun j frame =>
                 for_loop fuel
                   (fun i => w ← cam_face_arrow face_width; mret (i <? w))
                   (fun i frame =>
                      let end_ :=
                        CInt.add (CInt.add (CInt.add (face_x f) (CInt.mul (face_y f) 640)) i)
                                 (CInt.mul j 640) in
                      store_double_plane_y frame end_ Byte.x00)
                   0 frame)
              (face_height f)
              (fun j frame' => blanked (rows_before f j) frame frame')
              Hh) with (n := Z.to_nat (face_height f)) (i := 0) (a := frame) (fuel := fuel)
    as (frame' & t & Hrun & HInv).
  - intros j. eexists. rewrite bind_run, (cam_face_arrow_run _ f rest w Hbuf). reflexivity.
  - intros j a Hj HInv.
    destruct (for_loop_invariant w
                (fun i => w ← cam_face_arrow face_width; mret (i <? w))
                (fun i frame =>
                   let end_ :=
                     CInt.add (CInt.add (CInt.add (face_x f) (CInt.mul (face_y f) 640)) i)
                              (CInt.mul j 640) in
                   store_double_plane_y frame end_ Byte.x00)
                (face_width f)
                (fun i frame' =>
                   blanked (fun k => rows_before f j k \/ row_before f j i k) frame frame')
                Hw) with (n := Z.to_nat (face_width f)) (i := 0) (a := a) (fuel := fuel)
      as (a' & t & Hrun & HInv').
    + intros i. eexists. rewrite bind_run, (cam_face_arrow_run _ f rest w Hbuf). reflexivity.
    + intros i b Hi Hb. simpl.
      destruct (pixel_index_exact f (double_plane_y frame) i j Hfits Hi Hj) as [-> Hidx].
      destruct (store_double_plane_y_blanked _ frame b _ w Hb Hidx) as (b' & Hstore & Hb').
      exists b', []. split; [exact Hstore |].
      revert Hb'. apply blanked_ext. intros k. unfold row_before. split.
      * intros [[Hrows | (i' & Hi' & ->)] | ->]; [tauto | |].
        -- right. exists i'. split; [lia | reflexivity].
        -- right. exists i. split; [lia | reflexivity].
      * intros [Hrows | (i' & Hi' & ->)]; [tauto |].
        destruct (Z.eq_dec i' i) as [-> | Hne]; [right; reflexivity |].
        left. right. exists i'. split; [lia | reflexivity].
    + lia.
    + lia.
    + lia.
    + revert HInv. apply blanked_ext. intros k. unfold row_before. split; [tauto |].
      intros [Hrows | (i' & Hi' & _)]; [exact Hrows | lia].
    + exists a', t. split; [exact Hrun |].
      revert HInv'. apply blanked_ext. intros k. unfold rows_before, row_before. split.
      * intros [(i' & j' & Hi' & Hj' & ->) | (i' & Hi' & ->)].
        -- exists i', j'. repeat split; lia.
        -- exists i', j. repeat split; lia.
      * intros (i' & j' & Hi' & Hj' & ->).
        destruct (Z.eq_dec j' j) as [-> | Hne].
        -- right. exists i'. split; [lia | reflexivity].
        -- left. exists i', j'. repeat split; lia.
  - lia.
  - lia.
  - lia.
  - revert frame Hfits. intros frame _.
    generalize (blanked_nothing frame). apply blanked_ext.
    intros k. unfold rows_before. split; [tauto |]. intros (i' & j' & _ & Hj' & _). lia.
  - exists frame', t. split; [exact Hrun |].
    revert HInv. apply blanked_ext. intros k. unfold rows_before, in_face_rect. split.
    + intros (i' & j' & Hi' & Hj' & ->). exists i', j'. repeat split; lia.
    + intros (i' & j' & Hi' & Hj' & ->). exists i', j'. repeat split; lia.
Qed.

Lemma set_facelock_release (w : world) :
  facelock w = false -> set_facelock false (set_facelock true w) = w.
Proof. destruct w. simpl. intros ->. reflexivity. Qed.

(** What the callback does to the frame when it gets the lock and finds a
    detected face. *)
Lemma preview_cb_blanks_first_face (fuel : nat) (frame : camera_preview_data_s)
    (f : camera_detected_face_s) (rest : list camera_detected_face_s) (w : world) :
  facelock w = false ->
  cam_face w = Some (f :: rest) ->
  0 < cam_face_num w ->
  face_running (cam_data w) = true ->
  face_rect_fits f (double_plane_y frame) ->
  (Z.to_nat (Z.max (face_width f) (face_height f)) < fuel)%nat ->
  exists frame' t,
    __camera_preview_cb fuel frame w = (Done frame', w, t) /\
    blanked (in_face_rect f) frame frame'.
Proof.
  intros Hl Hbuf Hnum Hrun Hfits Hfuel.
  destruct (preview_rows fuel frame f rest (set_facelock true w) Hbuf Hfits Hfuel)
    as (frame' & t & Hloop & Hblank).
  exists frame'. unfold __camera_preview_cb.
  rewrite bind_run. unfold pthread_mutex_trylock at 1. rewrite Hl. simpl.
  rewrite bind_run. unfold load_cam_face at 1.
  rewrite bind_run. unfold emit at 1. unfold get at 1. simpl. rewrite Hbuf.
  rewrite bind_run, bind_run. unfold load_cam_face_num at 1.
  rewrite bind_run. unfold emit at 1. unfold get at 1. simpl.
  destruct (Z.ltb_spec 0 (cam_face_num w)) as [_ | ?]; [| lia].
  unfold get at 1. simpl. rewrite Hrun.
  rewrite bind_run, bind_run.
  rewrite (cam_face_arrow_run face_x f rest (set_facelock true w) Hbuf).
  rewrite bind_run.
  rewrite (cam_face_arrow_run face_y f rest (set_facelock true w) Hbuf).
  cbv zeta in Hloop |- *. rewrite Hloop.
  rewrite bind_run. unfold pthread_mutex_unlock at 1.
  rewrite set_facelock_release by exact Hl.
  eexists. split; [reflexivity | exact Hblank].
Qed.


(** C3, as the code has it. The callback reads the first record of the
    buffer only: the pixels of that rectangle are set to zero, and a pixel
    of any other record of the buffer that is not in the first rectangle
    keeps its value, however many records [cam_face_num] counts. *)
Theorem preview_cb_blanks_only_first_face (fuel : nat) (frame : camera_preview_data_s)
    (f : camera_detected_face_s) (rest : list camera_detected_face_s) (w : world) :
  facelock w = false ->
  cam_face w = Some (f :: rest) ->
  0 < cam_face_num w ->
  face_running (cam_data w) = true ->
  face_rect_fits f (double_plane_y frame) ->
  (Z.to_nat (Z.max (face_width f) (face_height f)) < fuel)%nat ->
  exists frame' t,
    __camera_preview_cb fuel frame w = (Done frame', w, t) /\
    (forall k, in_face_rect f k -> double_plane_y frame' !! k = Some Byte.x00) /\
    (forall g k, In g rest -> in_face_rect g k -> ~ in_face_rect f k ->
       double_plane_y frame' !! k = double_plane_y frame !! k).
Proof.
  intros Hl Hbuf Hnum Hrun Hfits Hfuel.
  destruct (preview_cb_blanks_first_face fuel frame f rest w Hl Hbuf Hnum Hrun Hfits Hfuel)
    as (frame' & t & Hcb & _ & _ & _ & _ & _ & _ & _ & Hin & Hout).
  exists frame', t. split; [exact Hcb |]. split.
  - exact Hin.
  - intros g k _ _ Hk. apply Hout, Hk.
Qed.

(** ** Mutual exclusion in the preview callback *)

Lemma no_lock_ops_holds (t : list event) (held : bool) :
  no_lock_ops t -> held_after held t = held.
Proof.
  intros Ht. induction Ht as [| e t He _ IH]; [reflexivity |].
  destruct e; simpl in *; try contradiction; exact IH.
Qed.

Lemma no_lock_ops_excluded (t : list event) :
  no_lock_ops t -> mutually_excluded true t = true.
Proof.
  intros Ht. induction Ht as [| e t He _ IH]; [reflexivity |].
  destruct e; simpl in *; try contradiction; rewrite ?orb_true_r; exact IH.
Qed.

Lemma mutually_excluded_app (t1 t2 : list event) (held : bool) :
  mutually_excluded held (t1 ++ t2) =
  mutually_excluded held t1 && mutually_excluded (held_after held t1) t2.
Proof.
  revert held. induction t1 as [| e t1 IH]; intros held; [reflexivity |].
  destruct e; simpl; rewrite IH; try reflexivity; rewrite andb_assoc; reflexivity.
Qed.

Lemma no_lock_ops_bind {A B} (m : M A) (k : A -> M B) (w : world) :
  no_lock_ops (trace_of (m w)) ->
  (forall a w', no_lock_ops (trace_of (k a w'))) ->
  no_lock_ops (trace_of ((m ≫= k) w)).
Proof.
  intros Hm Hk. rewrite trace_bind. destruct (result_of (m w)); try exact Hm.
  apply Forall_app. split; [exact Hm | apply Hk].
Qed.

Lemma critical_bind {A B} (m : M A) (k : A -> M B) (w : world) :
  no_lock_ops (trace_of (m w)) ->
  (forall a w', mutually_excluded true (trace_of (k a w')) = true) ->
  mutually_excluded true (trace_of ((m ≫= k) w)) = true.
Proof.
  intros Hm Hk. rewrite trace_bind.
  destruct (result_of (m w)); try (apply no_lock_ops_excluded; exact Hm).
  rewrite mutually_excluded_app, no_lock_ops_holds by exact Hm.
  rewrite no_lock_ops_excluded by exact Hm. apply Hk.
Qed.

Lemma cam_face_arrow_no_lock_ops (field : camera_detected_face_s -> Z) (w : world) :
  no_lock_ops (trace_of (cam_face_arrow field w)).
Proof.
  run. destruct (cam_face w) as [[| f rest] |]; simpl; repeat constructor.
Qed.

Lemma store_double_plane_y_no_lock_ops (frame : camera_preview_data_s) (index : Z)
    (value : Byte.byte) (w : world) :
  no_lock_ops (trace_of (store_double_plane_y frame index value w)).
Proof.
  unfold store_double_plane_y.
  destruct ((0 <=? index) && (index <? Z.of_nat (length (double_plane_y frame))));
    constructor.
Qed.

(** X22. In every run of the preview callback, whatever the state, the frame and
    the outcome, the reads of [cam_face] and [cam_face_num] come between a
    trylock that succeeded and its unlock. *)
Lemma preview_cb_mutually_excluded (fuel : nat) (frame : camera_preview_data_s) (w : world) :
  mutually_excluded false (trace_of (__camera_preview_cb fuel frame w)) = true.
Proof.
  unfold __camera_preview_cb. rewrite trace_bind.
  unfold pthread_mutex_trylock at 1 2 3. destruct (facelock w); [reflexivity |].
  unfold result_of, trace_of at 1, world_of. simpl.
  apply critical_bind; [repeat constructor |]. intros p w1.
  apply critical_bind.
  { destruct p as [buf |]; [| constructor].
    apply no_lock_ops_bind; [repeat constructor |]. intros n w2.
    destruct (0 <? n); constructor. }
  intros go w2. apply critical_bind.
  { destruct go; [| constructor].
    apply no_lock_ops_bind; [apply cam_face_arrow_no_lock_ops |]. intros x w3.
    apply no_lock_ops_bind; [apply cam_face_arrow_no_lock_ops |]. intros y w4.
    apply for_loop_no_lock_ops.
    - intros j w5. apply no_lock_ops_bind; [apply cam_face_arrow_no_lock_ops |].
      intros; constructor.
    - intros j a w5. apply for_loop_no_lock_ops.
      + intros i w6. apply no_lock_ops_bind; [apply cam_face_arrow_no_lock_ops |].
        intros; constructor.
      + intros i b w6. apply store_double_plane_y_no_lock_ops. }
  intros frame' w3. reflexivity.
Qed.

(** * The theorems at sample inputs *)

Lemma sample_rect_fits : face_rect_fits Sample.face_a (double_plane_y Sample.frame).
Proof. unfold face_rect_fits. vm_compute. repeat split; intros; discriminate. Defined.



Lemma preview_cb_blanks_only_first_face_witness :
  exists frame' t,
    __camera_preview_cb 3 Sample.frame
      (Sample.state false (Some [Sample.face_a; Sample.face_b]) 2)
    = (Done frame', Sample.state false (Some [Sample.face_a; Sample.face_b]) 2, t) /\
    double_plane_y frame' !! 0%nat = Some Byte.x00 /\
    double_plane_y frame' !! 5%nat = Some Byte.xff.
Proof.
  destruct (preview_cb_blanks_only_first_face 3 Sample.frame Sample.face_a [Sample.face_b]
              (Sample.state false (Some [Sample.face_a; Sample.face_b]) 2))
    as (frame' & t & Hrun & Hin & Hout).
  - reflexivity.
  - reflexivity.
  - simpl. lia.
  - reflexivity.
  - exact sample_rect_fits.
  - simpl. lia.
  - exists frame', t. split; [exact Hrun |]. split.
    + apply Hin. exists 0, 0. simpl. repeat split; lia.
    + rewrite (Hout Sample.face_b 5%nat); [reflexivity | left; reflexivity | |].
      * exists 0, 0. simpl. repeat split; lia.
      * intros (i & j & Hi & Hj & Hk). simpl in *. lia.
Defined.

(** C3 as stated fails: with two records in the buffer and
    [cam_face_num == 2], the pixel of the second rectangle is not set to
    zero. *)
Lemma preview_cb_blanks_every_face_counterexample :
  ~ (forall (fuel : nat) (frame : camera_preview_data_s)
       (buf : list camera_detected_face_s) (w : world),
       facelock w = false ->
       cam_face w = Some buf ->
       0 < cam_face_num w ->
       face_running (cam_data w) = true ->
       (forall g, In g buf ->
          face_rect_fits g (double_plane_y frame) /\
          (Z.to_nat (Z.max (face_width g) (face_height g)) < fuel)%nat) ->
       exists frame' t,
         __camera_preview_cb fuel frame w = (Done frame', w, t) /\
         forall g k, In g (take (Z.to_nat (cam_face_num w)) buf) -> in_face_rect g k ->
           double_plane_y frame' !! k = Some Byte.x00).
Proof.
  intros Hstated.
  destruct (Hstated 3%nat Sample.frame [Sample.face_a; Sample.face_b]
              (Sample.state false (Some [Sample.face_a; Sample.face_b]) 2))
    as (frame' & t & Hrun & Hall); try reflexivity; try (simpl; lia).
  - intros g [<- | [<- | []]]; (split; [| simpl; lia]);
      unfold face_rect_fits; vm_compute; repeat split; intros; discriminate.
  - assert (Hpixel : double_plane_y frame' !! 5%nat = Some Byte.x00).
    { apply (Hall Sample.face_b); [right; left; reflexivity |].
      exists 0, 0. simpl. repeat split; lia. }
    vm_compute in Hrun. injection Hrun as <- _. discriminate Hpixel.
Qed.

Lemma face_detected_dropped_when_locked_witness :
  __camera_face_detected_cb 2 (Some [Sample.face_b]) 1
    (Sample.state true (Some [Sample.face_a; Sample.no_face]) 1)
  = (Done tt, Sample.state true (Some [Sample.face_a; Sample.no_face]) 1, [TryLock false]).
Proof.
  apply (face_detected_dropped_when_locked 2 (Some [Sample.face_b]) 1
           (Sample.state true (Some [Sample.face_a; Sample.no_face]) 1)).
  - lia.
  - discriminate.
  - reflexivity.
Defined.

Lemma face_detected_copy_bounded_witness :
  exists w' t,
    __camera_face_detected_cb 2 (Some [Sample.face_a; Sample.face_b; Sample.face_c]) 3
      (Sample.state false (Some [Sample.no_face; Sample.no_face]) 0)
    = (Done tt, w', t) /\
    memcpy_counts t = [2] /\ cam_face_num w' = 2 /\
    cam_face w' = Some [Sample.face_a; Sample.face_b].
Proof.
  destruct (face_detected_copy_bounded 2
              [Sample.face_a; Sample.face_b; Sample.face_c]
              [Sample.no_face; Sample.no_face] 3
              (Sample.state false (Some [Sample.no_face; Sample.no_face]) 0))
    as (w' & t & buf' & Hrun & _ & Hbuf & _ & Ht & Hnum & ->).
  - lia.
  - lia.
  - simpl. lia.
  - reflexivity.
  - reflexivity.
  - exists w', t. repeat split; assumption.
Defined.

(** C4 as stated fails: it also speaks of the invocations whose trylock
    fails, and those copy nothing and store nothing. *)
Lemma face_detected_copy_bounded_counterexample :
  ~ (forall (MAXIMUM_FACE_NUMBER : Z) (src buf : list camera_detected_face_s)
       (count : Z) (w : world),
       0 < MAXIMUM_FACE_NUMBER -> 0 < count ->
       count <= Z.of_nat (length src) ->
       cam_face w = Some buf -> Z.of_nat (length buf) = MAXIMUM_FACE_NUMBER ->
       exists (w' : world) (t : list event),
         __camera_face_detected_cb MAXIMUM_FACE_NUMBER (Some src) count w = (Done tt, w', t) /\
         memcpy_counts t = [Z.min count MAXIMUM_FACE_NUMBER] /\
         cam_face_num w' = Z.min count MAXIMUM_FACE_NUMBER).
Proof.
  intros Hstated.
  destruct (Hstated 2 [Sample.face_b] [Sample.face_a; Sample.no_face] 1
              (Sample.state true (Some [Sample.face_a; Sample.no_face]) 0))
    as (w' & t & Hrun & Ht & Hnum); try reflexivity; try (simpl; lia).
  vm_compute in Hrun. injection Hrun as <- <-. discriminate Ht.
Qed.

Lemma face_detected_safe_iff_allocated_witness :
  result_of (__camera_face_detected_cb 2 (Some [Sample.face_b]) 1
               (Sample.state false None 0)) = Fault /\
  result_of (__camera_face_detected_cb 2 (Some [Sample.face_b]) 1
               (Sample.state false (Some [Sample.no_face; Sample.no_face]) 0)) = Done tt.
Proof.
  split.
  - apply (proj1 (face_detected_safe_iff_allocated 2) [Sample.face_b] 1
             (Sample.state false None 0)); try reflexivity; try (simpl; lia).
    intros buf Hbuf. discriminate Hbuf.
  - apply (proj1 (face_detected_safe_iff_allocated 2) [Sample.face_b] 1
             (Sample.state false (Some [Sample.no_face; Sample.no_face]) 0));
      try reflexivity; try (simpl; lia).
    + intros buf Hbuf. injection Hbuf as <-. reflexivity.
    + discriminate.
Defined.

Lemma preview_resolution_is_last_below_700_witness :
  find_preview_resolution [(320, 240); (640, 480); (1280, 720)] (7, 9) = Some (640, 480) /\
  find_preview_resolution [(800, 600); (1280, 720)] (7, 9) = Some (7, 9).
Proof.
  split.
  - apply (proj1 (proj2 (proj2 preview_resolution_is_last_below_700))).
  - apply (proj2 (proj2 (proj2 preview_resolution_is_last_below_700))).
    repeat constructor; simpl; lia.
Defined.

Lemma capturing_cb_stores_image_witness :
  files (world_of (_camera_capturing_cb (Some Sample.image) (Sample.state false None 0)))
    !! "/opt/usr/media/Camera/cam1700000000.jpg"
  = Some Sample.jpeg /\
  files (world_of (_camera_capturing_cb None (Sample.state false None 0))) = ∅.
Proof.
  split.
  - destruct (proj1 capturing_cb_stores_image Sample.image Sample.jpeg
                "/opt/usr/media/Camera" (Sample.state false None 0))
      as (_ & Hfiles & _ & _).
    + reflexivity.
    + simpl. lia.
    + reflexivity.
    + reflexivity.
    + reflexivity.
    + rewrite Hfiles. apply lookup_insert_eq.
  - apply (proj2 capturing_cb_stores_image None (Sample.state false None 0)).
    left. reflexivity.
Defined.

(** C7 as stated fails: a camera directory of 600 characters makes a path
    that does not fit the buffer of [BUFLEN] characters, and the file is
    stored under the path cut short, not under the directory joined with
    "cam<time>.jpg". *)
Lemma capturing_cb_stores_image_counterexample :
  ~ (forall (img : camera_image_data_s) (data : list Byte.byte) (dir : string) (w : world),
       image_data img = Some data ->
       0 <= image_size img <= Z.of_nat (length data) ->
       camera_directory w = Some dir ->
       malloc_ok (host w) = true -> fopen_ok (host w) = true ->
       files (world_of (_camera_capturing_cb (Some img) w))
         !! (dir +:+ "/cam" +:+ pretty (CInt.wrap (time_ret (host w))) +:+ ".jpg")
       = Some (take (Z.to_nat (image_size img)) data)).
Proof.
  intros Hstated.
  specialize (Hstated Sample.image Sample.jpeg (Sample.deep_directory 150)
                (mk_world (mk_camdata true false) (Some (Sample.deep_directory 150))
                   false None 0 ∅ [] Sample.host)).
  destruct (capturing_cb_writes Sample.image Sample.jpeg (Sample.deep_directory 150)
              (mk_world (mk_camdata true false) (Some (Sample.deep_directory 150))
                 false None 0 ∅ [] Sample.host)) as (t & Hrun);
    [reflexivity | simpl; lia | reflexivity | reflexivity | reflexivity |].
  rewrite Hrun in Hstated. unfold world_of in Hstated. simpl in Hstated.
  rewrite lookup_insert_ne in Hstated.
  - rewrite lookup_empty in Hstated.
    specialize (Hstated eq_refl ltac:(lia) eq_refl eq_refl eq_refl). discriminate Hstated.
  - intros Heq. apply (f_equal String.length) in Heq. vm_compute in Heq. discriminate Heq.
Qed.

(** * Further properties *)

Ltac run_calls :=
  unfold service_call, widget_call, report_error in *; run.

(** ** [_storage_cb] *)

Lemma storage_foreach_first_internal (storages : list storage_device) (id0 : Z) :
  storage_foreach_device_supported storages _storage_cb (Some id0) =
  Some (default id0
          (storage_id <$> head (filter (fun d => storage_type d = STORAGE_TYPE_INTERNAL)
                                  storages))).
Proof.
  induction storages as [| d rest IH]; [reflexivity |].
  simpl. unfold _storage_cb at 1. rewrite filter_cons.
  destruct (Z.eqb_spec STORAGE_TYPE_INTERNAL (storage_type d)) as [He | Hne].
  - rewrite decide_True by congruence. reflexivity.
  - rewrite decide_False by congruence. exact IH.
Qed.

(** X1. Over the storages of the device the callback keeps the id of the
    first internal storage; with no internal storage the [int] it was given
    keeps its value, and a NULL pointer is never written through. *)
Theorem storage_cb_finds_first_internal (storages : list storage_device)
    (user_data : option Z) :
  storage_foreach_device_supported storages _storage_cb user_data =
  match user_data with
  | Some id0 =>
      Some (default id0
              (storage_id <$> head (filter (fun d => storage_type d = STORAGE_TYPE_INTERNAL)
                                      storages)))
  | None => None
  end.
Proof.
  destruct user_data as [id0 |]; [apply storage_foreach_first_internal |].
  induction storages as [| d rest IH]; [reflexivity |].
  simpl. unfold _storage_cb at 1.
  destruct (STORAGE_TYPE_INTERNAL =? storage_type d); [reflexivity | exact IH].
Qed.

(** The storages behind the first internal one are not looked at: the
    result is the same whatever follows it. *)
Theorem storage_cb_stops_at_internal (before after : list storage_device)
    (d : storage_device) (user_data : option Z) :
  Forall (fun s => storage_type s <> STORAGE_TYPE_INTERNAL) before ->
  storage_type d = STORAGE_TYPE_INTERNAL ->
  storage_foreach_device_supported (before ++ d :: after) _storage_cb user_data =
  match user_data with
  | Some _ => Some (storage_id d)
  | None => None
  end.
Proof.
  intros Hbefore Hd. induction Hbefore as [| s l Hs _ IH]; simpl.
  - unfold _storage_cb. rewrite Hd. reflexivity.
  - unfold _storage_cb at 1.
    destruct (Z.eqb_spec STORAGE_TYPE_INTERNAL (storage_type s)) as [He | _];
      [congruence | exact IH].
Qed.

(** ** [__camera_cb_preview] *)

Lemma camera_cb_preview_run (svc : preview_service) (w : world) :
  exists t : list event,
    __camera_cb_preview svc w =
      (Done tt,
       (if preview_click_succeeds svc w
        then if cam_prev (cam_data w)
             then set_face_running false (set_cam_prev false w)
             else set_cam_prev true w
        else w),
       t) /\
    service_calls t =
      if cam_prev (cam_data w)
      then ("camera_unset_preview_cb", camera_unset_preview_cb_ret svc)
           :: (if camera_unset_preview_cb_ret svc =? CAMERA_ERROR_NONE
               then [("camera_stop_preview", camera_stop_preview_ret svc)] else [])
      else ("camera_start_preview", camera_start_preview_ret svc)
           :: (if camera_start_preview_ret svc =? CAMERA_ERROR_NONE
               then [("camera_set_preview_cb", camera_set_preview_cb_ret svc)] else []).
Proof.
  unfold __camera_cb_preview, preview_click_succeeds.
  destruct svc as [r1 r2 r3 r4]. destruct w as [[prev running] dir lock buf num fs js h].
  run_calls. unfold CAMERA_ERROR_NONE.
  destruct prev; simpl.
  - destruct r3 as [| p | p]; simpl; try (eexists; split; reflexivity).
    destruct r4 as [| p | p]; simpl; eexists; split; reflexivity.
  - destruct r1 as [| p | p]; simpl; try (eexists; split; reflexivity).
    destruct r2 as [| p | p]; simpl; eexists; split; reflexivity.
Qed.

Lemma preview_click_succeeds_spec (svc : preview_service) (w : world) :
  preview_click_succeeds svc w = true <->
  if cam_prev (cam_data w)
  then camera_unset_preview_cb_ret svc = CAMERA_ERROR_NONE /\
       camera_stop_preview_ret svc = CAMERA_ERROR_NONE
  else camera_start_preview_ret svc = CAMERA_ERROR_NONE /\
       camera_set_preview_cb_ret svc = CAMERA_ERROR_NONE.
Proof.
  unfold preview_click_succeeds.
  destruct (cam_prev (cam_data w)); rewrite andb_true_iff, !Z.eqb_eq; reflexivity.
Qed.

(** X2. A click on the preview button always returns. It flips [cam_prev]
    when both of its service calls return [CAMERA_ERROR_NONE], and a stop
    also clears [face_running]; when one of the calls fails, no global
    changes. *)
Theorem camera_cb_preview_flips_on_success_only (svc : preview_service) (w : world) :
  result_of (__camera_cb_preview svc w) = Done tt /\
  if cam_prev (cam_data w) then
    (camera_unset_preview_cb_ret svc = CAMERA_ERROR_NONE /\
     camera_stop_preview_ret svc = CAMERA_ERROR_NONE ->
     world_of (__camera_cb_preview svc w) = set_face_running false (set_cam_prev false w)) /\
    (camera_unset_preview_cb_ret svc <> CAMERA_ERROR_NONE \/
     camera_stop_preview_ret svc <> CAMERA_ERROR_NONE ->
     world_of (__camera_cb_preview svc w) = w)
  else
    (camera_start_preview_ret svc = CAMERA_ERROR_NONE /\
     camera_set_preview_cb_ret svc = CAMERA_ERROR_NONE ->
     world_of (__camera_cb_preview svc w) = set_cam_prev true w) /\
    (camera_start_preview_ret svc <> CAMERA_ERROR_NONE \/
     camera_set_preview_cb_ret svc <> CAMERA_ERROR_NONE ->
     world_of (__camera_cb_preview svc w) = w).
Proof.
  destruct (camera_cb_preview_run svc w) as (t & Hrun & _). rewrite Hrun.
  unfold result_of, world_of. simpl. split; [reflexivity |].
  pose proof (preview_click_succeeds_spec svc w) as Hspec.
  destruct (cam_prev (cam_data w)); split.
  - intros Hok. apply Hspec in Hok. rewrite Hok. reflexivity.
  - intros Hbad. destruct (preview_click_succeeds svc w); [| reflexivity].
    destruct Hspec as [Hspec _]. specialize (Hspec eq_refl). tauto.
  - intros Hok. apply Hspec in Hok. rewrite Hok. reflexivity.
  - intros Hbad. destruct (preview_click_succeeds svc w); [| reflexivity].
    destruct Hspec as [Hspec _]. specialize (Hspec eq_refl). tauto.
Qed.

(** X3. The click stops at the first call that fails: starting, the
    preview callback is registered only after [camera_start_preview]
    returned [CAMERA_ERROR_NONE]; stopping, the callback is unregistered
    first and [camera_stop_preview] is called only when that succeeded. *)
Theorem camera_cb_preview_stops_at_first_error (svc : preview_service) (w : world) :
  service_calls (trace_of (__camera_cb_preview svc w)) =
  if cam_prev (cam_data w)
  then ("camera_unset_preview_cb", camera_unset_preview_cb_ret svc)
       :: (if camera_unset_preview_cb_ret svc =? CAMERA_ERROR_NONE
           then [("camera_stop_preview", camera_stop_preview_ret svc)] else [])
  else ("camera_start_preview", camera_start_preview_ret svc)
       :: (if camera_start_preview_ret svc =? CAMERA_ERROR_NONE
           then [("camera_set_preview_cb", camera_set_preview_cb_ret svc)] else []).
Proof.
  destruct (camera_cb_preview_run svc w) as (t & Hrun & Hcalls). rewrite Hrun. exact Hcalls.
Qed.

Lemma camera_cb_face_starts_when_idle (w : world) :
  face_running (cam_data w) = false ->
  service_calls (trace_of (__camera_cb_face w)) =
    [("camera_start_face_detection", camera_start_face_detection_ret (host w))].
Proof.
  intros Hidle. unfold __camera_cb_face. run. rewrite Hidle. simpl.
  destruct (camera_start_face_detection_ret (host w) =? CAMERA_ERROR_NONE); reflexivity.
Qed.

(** X4. Stopping the preview clears [face_running] without a call of
    [camera_stop_face_detection]; so when face detection was running, the
    next click on "Face Detect" asks the service to start it again, not to
    stop it. *)
Theorem stop_preview_forgets_face_detection (svc : preview_service) (w : world) :
  cam_prev (cam_data w) = true ->
  face_running (cam_data w) = true ->
  camera_unset_preview_cb_ret svc = CAMERA_ERROR_NONE ->
  camera_stop_preview_ret svc = CAMERA_ERROR_NONE ->
  service_calls (trace_of (__camera_cb_preview svc w)) =
    [("camera_unset_preview_cb", CAMERA_ERROR_NONE);
     ("camera_stop_preview", CAMERA_ERROR_NONE)] /\
  service_calls (trace_of (__camera_cb_face (world_of (__camera_cb_preview svc w)))) =
    [("camera_start_face_detection", camera_start_face_detection_ret (host w))].
Proof.
  intros Hprev Hface Hunset Hstop.
  destruct (camera_cb_preview_run svc w) as (t & Hrun & Hcalls). rewrite Hrun.
  unfold trace_of at 1, world_of. simpl. rewrite Hcalls.
  unfold preview_click_succeeds. rewrite Hprev, Hunset, Hstop. simpl.
  split; [reflexivity |].
  apply (camera_cb_face_starts_when_idle (set_face_running false (set_cam_prev false w))).
  reflexivity.
Qed.

(** ** [__camera_cb_photo], [_camera_focus_cb], [_camera_completed_cb] *)

(** X5. A click on "Take a photo" starts the capture itself only when
    [camera_start_focusing] failed; when focusing was started the click
    makes no other call, and the capture is started by the focus callback,
    on the state [CAMERA_FOCUS_STATE_FOCUSED] and on no other state.
    Neither changes a global. *)
Theorem capture_started_by_click_or_focus
    (FOCUSED NOT_SUPPORTED : Z) (focusing_ret capture_ret state : Z) (w : world) :
  (exists t,
     __camera_cb_photo NOT_SUPPORTED focusing_ret capture_ret w = (Done tt, w, t) /\
     service_calls t =
       ("camera_start_focusing", focusing_ret)
       :: (if focusing_ret =? CAMERA_ERROR_NONE then []
           else [("camera_start_capture", capture_ret)])) /\
  (exists t,
     _camera_focus_cb FOCUSED state capture_ret w = (Done tt, w, t) /\
     service_calls t =
       if state =? FOCUSED then [("camera_start_capture", capture_ret)] else []).
Proof.
  split.
  - unfold __camera_cb_photo. run_calls. unfold CAMERA_ERROR_NONE.
    destruct focusing_ret as [| p | p]; simpl; try (eexists; split; reflexivity);
      destruct (NOT_SUPPORTED =? _); simpl;
      destruct capture_ret as [| q | q]; simpl; eexists; split; reflexivity.
  - unfold _camera_focus_cb. rewrite (Z.eqb_sym FOCUSED state). run_calls.
    destruct (state =? FOCUSED); simpl; [| eexists; split; reflexivity].
    unfold CAMERA_ERROR_NONE.
    destruct capture_ret as [| q | q]; simpl; eexists; split; reflexivity.
Qed.

(** After a capture the callback restarts the preview with five calls,
    start, stop, start, stop, start, and makes every one of them whatever
    the calls before returned; it changes no global, [cam_prev] included. *)
Theorem camera_completed_cb_makes_all_calls (rets : nat -> Z) (w : world) :
  exists t,
    _camera_completed_cb rets w = (Done tt, w, t) /\
    service_calls t =
      [("camera_start_preview", rets 0%nat); ("camera_stop_preview", rets 1%nat);
       ("camera_start_preview", rets 2%nat); ("camera_stop_preview", rets 3%nat);
       ("camera_start_preview", rets 4%nat)].
Proof.
  unfold _camera_completed_cb. run_calls. unfold CAMERA_ERROR_NONE.
  destruct (rets 0%nat) as [| p0 | p0], (rets 1%nat) as [| p1 | p1],
    (rets 2%nat) as [| p2 | p2], (rets 3%nat) as [| p3 | p3],
    (rets 4%nat) as [| p4 | p4]; simpl; eexists; split; reflexivity.
Qed.

(** ** What the callbacks leave alone *)

Lemma world_bind {A B} (m : M A) (k : A -> M B) (w : world) :
  world_of ((m ≫= k) w) =
  match result_of (m w) with
  | Done a => world_of (k a (world_of (m w)))
  | _ => world_of (m w)
  end.
Proof.
  rewrite bind_run. destruct (m w) as [[[a | |] w1] t1]; try reflexivity.
  unfold world_of, result_of. simpl. destruct (k a w1) as [[r w2] t2]. reflexivity.
Qed.

Lemma result_bind {A B} (m : M A) (k : A -> M B) (w : world) :
  result_of ((m ≫= k) w) =
  match result_of (m w) with
  | Done a => result_of (k a (world_of (m w)))
  | Fault => Fault
  | OutOfFuel => OutOfFuel
  end.
Proof.
  rewrite bind_run. destruct (m w) as [[[a | |] w1] t1]; try reflexivity.
  unfold world_of, result_of. simpl. destruct (k a w1) as [[r w2] t2]. reflexivity.
Qed.

Lemma keeps_world_bind {A B} (m : M A) (k : A -> M B) :
  (forall w, world_of (m w) = w) ->
  (forall a w, world_of (k a w) = w) ->
  forall w, world_of ((m ≫= k) w) = w.
Proof.
  intros Hm Hk w. rewrite world_bind. destruct (result_of (m w)); rewrite ?Hk; apply Hm.
Qed.

Lemma cam_face_arrow_keeps_world (field : camera_detected_face_s -> Z) (w : world) :
  world_of (cam_face_arrow field w) = w.
Proof. run. destruct (cam_face w) as [[| f rest] |]; reflexivity. Qed.

Lemma store_double_plane_y_keeps_world (frame : camera_preview_data_s) (index : Z)
    (value : Byte.byte) (w : world) :
  world_of (store_double_plane_y frame index value w) = w.
Proof.
  unfold store_double_plane_y.
  destruct ((0 <=? index) && (index <? Z.of_nat (length (double_plane_y frame))));
    reflexivity.
Qed.

Lemma for_loop_keeps_world {A} (cond : Z -> M bool) (body : Z -> A -> M A) :
  (forall i w, world_of (cond i w) = w) ->
  (forall i a w, world_of (body i a w) = w) ->
  forall (fuel : nat) (i : Z) (a : A) (w : world),
    world_of (for_loop fuel cond body i a w) = w.
Proof.
  intros Hcond Hbody. induction fuel as [| fuel IH]; intros i a w; simpl; [reflexivity |].
  apply keeps_world_bind; [apply Hcond |]. intros [|] w1; [| reflexivity].
  apply keeps_world_bind; [apply Hbody |]. intros a' w2. apply IH.
Qed.

Lemma preview_cb_unfold (fuel : nat) (frame : camera_preview_data_s) :
  __camera_preview_cb fuel frame =
  (pthread_mutex_trylock ≫= λ r,
     if r =? 0 then preview_critical_section fuel frame else mret frame).
Proof. reflexivity. Qed.

Lemma critical_world_bind {A B} (m : M A) (k : A -> M B) :
  (forall w, world_of (m w) = w) ->
  (forall a w,
      world_of (k a w) =
      match result_of (k a w) with Done _ => set_facelock false w | _ => w end) ->
  forall w,
    world_of ((m ≫= k) w) =
    match result_of ((m ≫= k) w) with Done _ => set_facelock false w | _ => w end.
Proof.
  intros Hm Hk w. rewrite world_bind, result_bind.
  specialize (Hm w). destruct (result_of (m w)); try exact Hm.
  rewrite Hm. apply Hk.
Qed.

Lemma preview_critical_section_world (fuel : nat) (frame : camera_preview_data_s)
    (w : world) :
  world_of (preview_critical_section fuel frame w) =
  match result_of (preview_critical_section fuel frame w) with
  | Done _ => set_facelock false w
  | _ => w
  end.
Proof.
  unfold preview_critical_section.
  apply critical_world_bind; [intros w'; reflexivity |]. intros p w'.
  apply critical_world_bind.
  { destruct p as [buf |]; [| intros; reflexivity].
    apply keeps_world_bind; [intros; reflexivity |].
    intros n w2. destruct (0 <? n); reflexivity. }
  intros go w2. apply critical_world_bind.
  { destruct go; [| intros; reflexivity].
    apply keeps_world_bind; [apply cam_face_arrow_keeps_world |]. intros x.
    apply keeps_world_bind; [apply cam_face_arrow_keeps_world |]. intros y.
    apply for_loop_keeps_world.
    - intros j. apply keeps_world_bind; [apply cam_face_arrow_keeps_world |].
      intros; reflexivity.
    - intros j a. apply for_loop_keeps_world.
      + intros i. apply keeps_world_bind; [apply cam_face_arrow_keeps_world |].
        intros; reflexivity.
      + intros i b. apply store_double_plane_y_keeps_world. }
  intros frame' w3. reflexivity.
Qed.

(** The globals after the preview callback: as before when it returns, and
    with the lock still held when it does not. *)
Lemma preview_cb_world (fuel : nat) (frame : camera_preview_data_s) (w : world) :
  world_of (__camera_preview_cb fuel frame w) =
  match result_of (__camera_preview_cb fuel frame w) with
  | Done _ => w
  | _ => set_facelock true w
  end.
Proof.
  rewrite preview_cb_unfold, world_bind, result_bind.
  unfold pthread_mutex_trylock. destruct (facelock w) eqn:Hl.
  - reflexivity.
  - pose proof (preview_critical_section_world fuel frame (set_facelock true w)) as Hsec.
    unfold result_of, world_of in *. simpl in *.
    destruct (preview_critical_section fuel frame (set_facelock true w)) as [[r w2] t2].
    simpl in *. subst w2. destruct r; try reflexivity.
    apply set_facelock_release. exact Hl.
Qed.

(** X6. The preview callback changes nothing but the frame: when it
    returns, every global is as before, the mutex included; and whatever its
    outcome, the face buffer, the count, the flags, the directory and the
    files are untouched. *)
Theorem preview_cb_keeps_globals (fuel : nat) (frame : camera_preview_data_s) (w : world) :
  (forall frame', result_of (__camera_preview_cb fuel frame w) = Done frame' ->
                  world_of (__camera_preview_cb fuel frame w) = w) /\
  cam_face (world_of (__camera_preview_cb fuel frame w)) = cam_face w /\
  cam_face_num (world_of (__camera_preview_cb fuel frame w)) = cam_face_num w /\
  cam_data (world_of (__camera_preview_cb fuel frame w)) = cam_data w /\
  camera_directory (world_of (__camera_preview_cb fuel frame w)) = camera_directory w /\
  files (world_of (__camera_preview_cb fuel frame w)) = files w /\
  jobs (world_of (__camera_preview_cb fuel frame w)) = jobs w.
Proof.
  rewrite preview_cb_world.
  destruct (result_of (__camera_preview_cb fuel frame w)) as [a | |];
    repeat split; try reflexivity; intros frame' Hdone; discriminate Hdone.
Qed.

(** X7. The frame passes through untouched, for any loop budget, when the
    mutex is held, when there is no buffer, when [cam_face_num] is not
    positive or when face detection is not running. *)
Theorem preview_cb_idle (fuel : nat) (frame : camera_preview_data_s) (w : world) :
  facelock w = true \/ cam_face w = None \/ cam_face_num w <= 0 \/
  face_running (cam_data w) = false ->
  exists t, __camera_preview_cb fuel frame w = (Done frame, w, t).
Proof.
  intros Hidle. unfold __camera_preview_cb.
  destruct w as [[prev running] dir lock buf num fs js h]. run. unfold set_facelock. simpl.
  destruct lock; [eexists; reflexivity |]. simpl.
  destruct Hidle as [Hlock | [Hnull | [Hnum | Hrun]]].
  - discriminate Hlock.
  - subst buf. eexists; reflexivity.
  - destruct buf; [| eexists; reflexivity]. simpl.
    destruct (Z.ltb_spec 0 num); [lia |]. eexists; reflexivity.
  - subst running. destruct buf; [| eexists; reflexivity]. simpl.
    destruct (0 <? num); simpl; eexists; reflexivity.
Qed.



Lemma blanked_again (S : nat -> Prop) (a b c : camera_preview_data_s) :
  blanked S a b -> blanked S b c -> c = b.
Proof.
  intros (_ & _ & _ & _ & _ & _ & _ & Hin & _)
         (H1 & H2 & H3 & H4 & H5 & H6 & _ & Hin' & Hout').
  destruct b as [b1 b2 b3 b4 b5 by_ buv], c as [c1 c2 c3 c4 c5 cy cuv]. simpl in *.
  subst. f_equal. apply list_eq. intros k.
  assert (Hdec : {cy !! k = by_ !! k} + {cy !! k <> by_ !! k})
    by (decide equality; apply Byte.byte_eq_dec).
  destruct Hdec as [Heq | Hne]; [exact Heq |]. exfalso. apply Hne.
  apply Hout'. intros Hk. apply Hne. rewrite (Hin k Hk), (Hin' k Hk). reflexivity.
Qed.

(** X9. Blanking is idempotent: the callback run again on the frame it
    returned, in the same state, returns that frame unchanged. *)
Theorem preview_cb_idempotent (fuel : nat) (frame : camera_preview_data_s)
    (f : camera_detected_face_s) (rest : list camera_detected_face_s) (w : world) :
  facelock w = false ->
  cam_face w = Some (f :: rest) ->
  0 < cam_face_num w ->
  face_running (cam_data w) = true ->
  face_rect_fits f (double_plane_y frame) ->
  (Z.to_nat (Z.max (face_width f) (face_height f)) < fuel)%nat ->
  exists frame' t t',
    __camera_preview_cb fuel frame w = (Done frame', w, t) /\
    __camera_preview_cb fuel frame' w = (Done frame', w, t').
Proof.
  intros Hl Hbuf Hnum Hrun Hfits Hfuel.
  destruct (preview_cb_blanks_first_face fuel frame f rest w Hl Hbuf Hnum Hrun Hfits Hfuel)
    as (frame' & t & Hcb & Hblank).
  assert (Hfits' : face_rect_fits f (double_plane_y frame')).
  { destruct Hblank as (_ & _ & _ & _ & _ & _ & Hlen & _).
    unfold face_rect_fits in *. rewrite Hlen. exact Hfits. }
  destruct (preview_cb_blanks_first_face fuel frame' f rest w Hl Hbuf Hnum Hrun Hfits' Hfuel)
    as (frame'' & t' & Hcb' & Hblank').
  rewrite (blanked_again _ _ _ _ Hblank Hblank') in Hcb'.
  exists frame', t, t'. split; assumption.
Qed.

(** ** More on [__camera_face_detected_cb] *)

Section FaceBufferFurther.

Variable MAXIMUM_FACE_NUMBER : Z.

Local Abbreviation detected_cb := (__camera_face_detected_cb MAXIMUM_FACE_NUMBER).

(** X10. A report with a negative count, or with faces missing while the
    count is not zero, is ignored altogether: no global changes and the
    mutex is not even tried. *)
Theorem face_detected_ignores_bad_report
    (faces : option (list camera_detected_face_s)) (count : Z) (w : world) :
  count < 0 \/ (count <> 0 /\ faces = None) ->
  detected_cb faces count w = (Done tt, w, []).
Proof.
  intros Hbad. unfold __camera_face_detected_cb.
  destruct (Z.eqb_spec count 0) as [-> | _]; [lia |].
  destruct faces as [src |]; [| reflexivity].
  destruct (Z.ltb_spec 0 count) as [? | _]; [| reflexivity].
  destruct Hbad as [? | [_ ?]]; [lia | discriminate].
Qed.

Lemma face_detected_world_cases
    (faces : option (list camera_detected_face_s)) (count : Z) (w : world) :
  let r := detected_cb faces count w in
  let n := Z.min count MAXIMUM_FACE_NUMBER in
  (world_of r = w /\ (result_of r = Done tt)) \/
  (count = 0 /\ world_of r = set_cam_face_num 0 w /\ result_of r = Done tt) \/
  (exists src buf,
      faces = Some src /\ cam_face w = Some buf /\ facelock w = false /\ 0 < count /\
      0 <= n <= Z.of_nat (length buf) /\ n <= Z.of_nat (length src) /\
      ((result_of r = Done tt /\ facelock (world_of r) = false) \/
       (result_of r = Fault /\ facelock (world_of r) = true)) /\
      cam_face (world_of r) = Some (take (Z.to_nat n) src ++ drop (Z.to_nat n) buf) /\
      cam_face_num (world_of r) = n /\
      cam_data (world_of r) = cam_data w /\
      camera_directory (world_of r) = camera_directory w /\
      files (world_of r) = files w /\ jobs (world_of r) = jobs w) \/
  (facelock w = false /\ result_of r = Fault /\ world_of r = set_facelock true w).
Proof.
  intros r n. subst r. unfold __camera_face_detected_cb.
  destruct (Z.eqb_spec count 0) as [-> | Hne].
  { right. left. repeat split. }
  destruct faces as [src |]; [| left; split; reflexivity].
  destruct (Z.ltb_spec 0 count) as [Hpos | _]; [| left; split; reflexivity].
  replace (if MAXIMUM_FACE_NUMBER <? count then MAXIMUM_FACE_NUMBER else count)
    with n by (subst n; destruct (Z.ltb_spec MAXIMUM_FACE_NUMBER count); lia).
  clearbody n.
  destruct w as [cd dir lock buf num fs js h]. run.
  destruct lock; [left; split; reflexivity |]. simpl.
  destruct buf as [buf |]; [| right; right; right; repeat split].
  simpl.
  destruct (Z.leb_spec 0 n); [| right; right; right; repeat split].
  destruct (Z.leb_spec n (Z.of_nat (length buf))); [| right; right; right; repeat split].
  destruct (Z.leb_spec n (Z.of_nat (length src))); [| right; right; right; repeat split].
  simpl. right. right. left. exists src, buf.
  destruct src as [| f src']; simpl; repeat split; try lia; try tauto; auto.
Qed.

Lemma face_detected_keeps_cam_data
    (faces : option (list camera_detected_face_s)) (count : Z) (w : world) :
  cam_data (world_of (detected_cb faces count w)) = cam_data w /\
  camera_directory (world_of (detected_cb faces count w)) = camera_directory w /\
  files (world_of (detected_cb faces count w)) = files w /\
  jobs (world_of (detected_cb faces count w)) = jobs w.
Proof.
  destruct (face_detected_world_cases faces count w)
    as [[-> _] | [(_ & -> & _) | [(src & buf & _ & _ & _ & _ & _ & _ & _ & _ & _ & H) |
                                  (_ & _ & ->)]]];
    try (repeat split; reflexivity).
  exact H.
Qed.

(** X11. The callback keeps the shape of the shared state, whatever it is
    given and whatever its outcome: the pointer [cam_face] stays NULL or
    keeps pointing to a buffer of the same number of records, a count
    between 0 and [MAXIMUM_FACE_NUMBER] stays in that range, and the flags,
    the directory and the files are not touched. *)
Theorem face_detected_keeps_shape
    (faces : option (list camera_detected_face_s)) (count : Z) (w : world) :
  match cam_face w with
  | Some buf =>
      exists buf', cam_face (world_of (detected_cb faces count w)) = Some buf' /\
                   length buf' = length buf
  | None => cam_face (world_of (detected_cb faces count w)) = None
  end /\
  (0 <= cam_face_num w <= MAXIMUM_FACE_NUMBER ->
   0 <= cam_face_num (world_of (detected_cb faces count w)) <= MAXIMUM_FACE_NUMBER) /\
  cam_data (world_of (detected_cb faces count w)) = cam_data w /\
  camera_directory (world_of (detected_cb faces count w)) = camera_directory w /\
  files (world_of (detected_cb faces count w)) = files w.
Proof.
  split; [| split].
  - destruct (face_detected_world_cases faces count w)
      as [[-> _] | [(_ & -> & _) | [(src & buf & _ & Hbuf & _ & _ & Hn & Hsrc & _ & Hf & _) |
                                    (_ & _ & ->)]]].
    + destruct (cam_face w); [eexists; split; reflexivity | reflexivity].
    + simpl. destruct (cam_face w); [eexists; split; reflexivity | reflexivity].
    + rewrite Hbuf, Hf. eexists. split; [reflexivity |].
      rewrite length_app, length_take, length_drop. lia.
    + simpl. destruct (cam_face w); [eexists; split; reflexivity | reflexivity].
  - intros Hnum.
    destruct (face_detected_world_cases faces count w)
      as [[-> _] | [(_ & -> & _) | [(src & buf & _ & _ & _ & Hc & Hn & _ & _ & _ & -> & _) |
                                    (_ & _ & ->)]]];
      simpl; lia.
  - destruct (face_detected_keeps_cam_data faces count w) as (H1 & H2 & H3 & _).
    repeat split; assumption.
Qed.

(** X12. The callback never returns with the mutex it took: when it
    returns, [facelock] is as it found it. *)
Theorem face_detected_releases_lock
    (faces : option (list camera_detected_face_s)) (count : Z) (w : world) :
  result_of (detected_cb faces count w) = Done tt ->
  facelock (world_of (detected_cb faces count w)) = facelock w.
Proof.
  intros Hdone.
  destruct (face_detected_world_cases faces count w)
    as [[-> _] | [(_ & -> & _) | [(src & buf & _ & _ & Hl & _ & _ & _ & Hres & _) |
                                  (_ & Hfault & _)]]].
  - reflexivity.
  - reflexivity.
  - destruct Hres as [[_ ->] | [Hfault _]]; [congruence |].
    rewrite Hfault in Hdone. discriminate Hdone.
  - rewrite Hfault in Hdone. discriminate Hdone.
Qed.

Lemma detected_then_preview
    (f : camera_detected_face_s) (others buf : list camera_detected_face_s)
    (count : Z) (w : world) (fuel : nat) (frame : camera_preview_data_s) :
  0 < MAXIMUM_FACE_NUMBER -> 0 < count ->
  count <= Z.of_nat (length (f :: others)) ->
  facelock w = false ->
  cam_face w = Some buf -> MAXIMUM_FACE_NUMBER <= Z.of_nat (length buf) ->
  face_running (cam_data w) = true ->
  face_rect_fits f (double_plane_y frame) ->
  (Z.to_nat (Z.max (face_width f) (face_height f)) < fuel)%nat ->
  exists frame' t,
    __camera_preview_cb fuel frame (world_of (detected_cb (Some (f :: others)) count w))
    = (Done frame', world_of (detected_cb (Some (f :: others)) count w), t) /\
    blanked (in_face_rect f) frame frame'.
Proof.
  intros HM Hc Hsrc Hl Hbuf Hlen Hrun Hfits Hfuel.
  destruct (face_detected_keeps_cam_data (Some (f :: others)) count w) as (Hcd & _).
  destruct (face_detected_copies MAXIMUM_FACE_NUMBER (f :: others) buf count w
              HM Hc Hsrc Hl Hbuf Hlen) as (w' & t & Hcb & Hface & Hnum & _ & Hl').
  rewrite Hcb in *. unfold world_of in *. simpl in *.
  assert (Hn : Z.to_nat (Z.min count MAXIMUM_FACE_NUMBER)
               = S (Z.to_nat (Z.min count MAXIMUM_FACE_NUMBER) - 1)) by lia.
  rewrite Hn in Hface. simpl in Hface.
  eapply preview_cb_blanks_first_face; try eassumption.
  - lia.
  - rewrite Hcd. exact Hrun.
Qed.

(** X13. Producer and consumer together: after a report of [count > 0]
    faces that got the lock, the next preview frame, with detection
    running, comes back with the rectangle of the first reported face set
    to zero in the Y plane and nothing else changed. *)
Theorem detected_face_blanked_in_next_frame
    (f : camera_detected_face_s) (others buf : list camera_detected_face_s)
    (count : Z) (w : world) (fuel : nat) (frame : camera_preview_data_s) :
  0 < MAXIMUM_FACE_NUMBER -> 0 < count ->
  count <= Z.of_nat (length (f :: others)) ->
  facelock w = false ->
  cam_face w = Some buf -> MAXIMUM_FACE_NUMBER <= Z.of_nat (length buf) ->
  face_running (cam_data w) = true ->
  face_rect_fits f (double_plane_y frame) ->
  (Z.to_nat (Z.max (face_width f) (face_height f)) < fuel)%nat ->
  exists frame' t,
    __camera_preview_cb fuel frame (world_of (detected_cb (Some (f :: others)) count w))
    = (Done frame', world_of (detected_cb (Some (f :: others)) count w), t) /\
    blanked (in_face_rect f) frame frame'.
Proof. apply detected_then_preview. Qed.

(** X14. A report of no face stops the blanking: after the callback was
    given [count == 0], the next preview frame passes through untouched,
    whatever the buffer still holds. *)
Theorem zero_report_stops_blanking
    (faces : option (list camera_detected_face_s)) (w : world)
    (fuel : nat) (frame : camera_preview_data_s) :
  result_of (__camera_preview_cb fuel frame (world_of (detected_cb faces 0 w)))
  = Done frame.
Proof.
  change (world_of (detected_cb faces 0 w)) with (set_cam_face_num 0 w).
  unfold __camera_preview_cb. destruct w as [cd dir lock buf num fs js h]. run.
  unfold set_cam_face_num. simpl.
  destruct lock; [reflexivity |]. simpl. destruct buf; reflexivity.
Qed.

End FaceBufferFurther.

(** ** [create_buttons_in_main_window] *)

Lemma service_calls_app (t1 t2 : list event) :
  service_calls (t1 ++ t2) = service_calls t1 ++ service_calls t2.
Proof. apply omap_app. Qed.

Lemma observe_call_bind {A} (api : string) (r : Z) (k : Z -> M A) (w : world) :
  observe (service_call api r ≫= k) w = and_call (api, r) (observe (k r) w).
Proof.
  unfold observe, and_call. rewrite bind_run. unfold service_call. run.
  destruct (k r w) as [[res w'] t]. reflexivity.
Qed.

Lemma observe_quiet_bind {A} (m : M unit) (k : unit -> M A) (w : world) :
  quiet m w -> observe (m ≫= k) w = observe (k tt) w.
Proof.
  intros (t & Hm & Ht). unfold observe. rewrite bind_run, Hm.
  destruct (k tt w) as [[res w'] t']. unfold result_of, world_of, trace_of. simpl.
  rewrite service_calls_app, Ht. reflexivity.
Qed.

Lemma observe_quiet (m : M unit) (w : world) :
  quiet m w -> observe m w = (Done tt, w, []).
Proof. intros (t & Hm & Ht). unfold observe. rewrite Hm. simpl. rewrite Ht. reflexivity. Qed.

Lemma observe_modify_bind {A} (f : world -> world) (k : unit -> M A) (w : world) :
  observe (modify f ≫= k) w = observe (k tt) (f w).
Proof.
  unfold observe. rewrite bind_run. unfold modify.
  destruct (k tt (f w)) as [[res w'] t']. reflexivity.
Qed.

Lemma widget_call_quiet (name : string) (args : list Z) (w : world) :
  quiet (widget_call name args) w.
Proof. eexists. split; reflexivity. Qed.

Lemma print_msg_quiet (text : string) (args : list Z) (w : world) :
  quiet (PRINT_MSG text args) w.
Proof. eexists. split; reflexivity. Qed.

Lemma dlog_then_print_quiet (api : string) (r : Z) (text : string) (w : world) :
  quiet (DLOG_PRINT_ERROR api r;; PRINT_MSG text []) w.
Proof. eexists. split; reflexivity. Qed.

Lemma report_error_quiet (api : string) (r : Z) (text : string) (w : world) :
  quiet (report_error api r text) w.
Proof.
  unfold report_error. destruct (negb (CAMERA_ERROR_NONE =? r)); eexists; split; reflexivity.
Qed.

Section SetupProperties.

Variable MAXIMUM_FACE_NUMBER : Z.

Local Abbreviation setup := (create_buttons_in_main_window MAXIMUM_FACE_NUMBER).
Local Abbreviation face_setup :=
  (create_buttons_in_main_window_face_setup MAXIMUM_FACE_NUMBER).

Lemma face_setup_run (supported : bool) (w : world) :
  exists t,
    face_setup supported w = (Done tt, world_of (face_setup supported w), t) /\
    service_calls t = [].
Proof.
  unfold create_buttons_in_main_window_face_setup. run.
  destruct supported; eexists; split; reflexivity.
Qed.

Lemma observe_face_setup_bind {A} (supported : bool) (k : unit -> M A) (w : world) :
  observe (face_setup supported ≫= k) w =
  observe (k tt) (world_of (face_setup supported w)).
Proof.
  destruct (face_setup_run supported w) as (t & Hrun & Ht).
  set (w1 := world_of (face_setup supported w)) in *.
  unfold observe. rewrite bind_run, Hrun.
  destruct (k tt w1) as [[res w'] t']. unfold result_of, world_of, trace_of. simpl.
  rewrite service_calls_app, Ht. reflexivity.
Qed.

Ltac setup_step :=
  first [ rewrite observe_call_bind
        | rewrite observe_quiet_bind
            by first [ apply widget_call_quiet | apply report_error_quiet
                     | apply print_msg_quiet | apply dlog_then_print_quiet ] ].

Ltac setup_end :=
  rewrite observe_quiet
    by first [ apply dlog_then_print_quiet | apply print_msg_quiet
             | eexists; split; reflexivity ].

(** The setup when one of the six steps fails: it returns with the globals
    as they were. *)
Lemma setup_stops_early (svc : setup_service) (w : world) :
  setup_reaches_face_detection svc = false ->
  exists calls,
    observe (setup svc) w = (Done tt, w, calls) /\
    Forall (fun c => c.1 <> "pthread_mutex_init" /\
                     c.1 <> "storage_foreach_device_supported" /\
                     c <> ("camera_set_preview_cb", CAMERA_ERROR_NONE)) calls.
Proof.
  unfold setup_reaches_face_detection, create_buttons_in_main_window,
    create_buttons_in_main_window_camera. intros Hstop.
  do 13 setup_step. setup_step.
  rewrite (Z.eqb_sym CAMERA_ERROR_NONE (setup_camera_create svc)).
  destruct (setup_camera_create svc =? CAMERA_ERROR_NONE) eqn:H1; cbn [negb orb].
  2: { setup_end. unfold and_call. simpl. eexists. split; [reflexivity |]. repeat constructor; done. }
  setup_step.
  rewrite (Z.eqb_sym CAMERA_ERROR_NONE (setup_camera_get_state svc)),
    (Z.eqb_sym CAMERA_STATE_CREATED (setup_state svc)).
  destruct (setup_camera_get_state svc =? CAMERA_ERROR_NONE) eqn:H2; cbn [negb orb].
  2: { setup_end. unfold and_call. simpl. eexists. split; [reflexivity |]. repeat constructor; done. }
  destruct (setup_state svc =? CAMERA_STATE_CREATED) eqn:H3; cbn [negb orb].
  2: { setup_end. unfold and_call. simpl. eexists. split; [reflexivity |]. repeat constructor; done. }
  do 7 setup_step.
  rewrite (Z.eqb_sym CAMERA_ERROR_NONE (setup_camera_set_display svc)).
  destruct (setup_camera_set_display svc =? CAMERA_ERROR_NONE) eqn:H4; cbn [negb orb].
  2: { setup_end. unfold and_call. simpl. eexists. split; [reflexivity |]. repeat constructor; done. }
  cbv zeta. rewrite find_preview_resolution_last.
  setup_step.
  rewrite (Z.eqb_sym CAMERA_ERROR_NONE
             (setup_camera_foreach_supported_preview_resolution svc)).
  destruct (setup_camera_foreach_supported_preview_resolution svc =? CAMERA_ERROR_NONE)
    eqn:H5; cbn [negb orb].
  2: { setup_end. unfold and_call. simpl. eexists. split; [reflexivity |]. repeat constructor; done. }
  simpl in Hstop.
  destruct (default (setup_stack_resolution svc) _) as [width height].
  setup_step.
  rewrite observe_quiet_bind.
  2: { destruct (negb _); [apply dlog_then_print_quiet | apply print_msg_quiet]. }
  do 5 setup_step. rewrite Hstop. cbn [negb orb].
  setup_end. unfold and_call. simpl. eexists. split; [reflexivity |].
  repeat constructor; try done.
  simpl. intros Heq. injection Heq as Heq. apply Z.eqb_eq in Heq. congruence.
Qed.

(** The setup when the six steps succeed: the face buffer step is run, and
    the storage steps decide the rest. *)
Lemma setup_goes_on (svc : setup_service) (w : world) :
  setup_reaches_face_detection svc = true ->
  observe (setup svc) w =
  let w1 := world_of (face_setup (setup_camera_is_supported_face_detection svc) w) in
  if setup_storage_foreach_device_supported svc =? STORAGE_ERROR_NONE then
    let answer := setup_storage_get_directory svc (setup_storage_id svc) in
    let w2 := if answer.1 =? STORAGE_ERROR_NONE
              then set_camera_directory (Some answer.2) w1 else w1 in
    let w3 := if setup_pthread_mutex_init svc =? 0 then set_facelock false w2 else w2 in
    (Done tt, w3,
     setup_camera_calls svc ++
     [("storage_foreach_device_supported", setup_storage_foreach_device_supported svc);
      ("storage_get_directory", answer.1);
      ("pthread_mutex_init", setup_pthread_mutex_init svc)])
  else
    (Done tt, w1,
     setup_camera_calls svc ++
     [("storage_foreach_device_supported", setup_storage_foreach_device_supported svc)]).
Proof.
  unfold setup_reaches_face_detection. rewrite !andb_true_iff.
  intros [[[[[H1 H2] H3] H4] H5] H6].
  unfold create_buttons_in_main_window, create_buttons_in_main_window_camera,
    setup_camera_calls, setup_resolution, setup_storage_id.
  do 13 setup_step. setup_step.
  rewrite (Z.eqb_sym CAMERA_ERROR_NONE (setup_camera_create svc)), H1. cbn [negb orb].
  setup_step.
  rewrite (Z.eqb_sym CAMERA_ERROR_NONE (setup_camera_get_state svc)),
    (Z.eqb_sym CAMERA_STATE_CREATED (setup_state svc)), H2, H3. cbn [negb orb].
  do 7 setup_step.
  rewrite (Z.eqb_sym CAMERA_ERROR_NONE (setup_camera_set_display svc)), H4. cbn [negb orb].
  cbv zeta. rewrite find_preview_resolution_last.
  setup_step.
  rewrite (Z.eqb_sym CAMERA_ERROR_NONE
             (setup_camera_foreach_supported_preview_resolution svc)), H5. cbn [negb orb].
  destruct (default (setup_stack_resolution svc) _) as [width height]. cbn [fst snd].
  setup_step.
  rewrite observe_quiet_bind.
  2: { destruct (negb _); [apply dlog_then_print_quiet | apply print_msg_quiet]. }
  do 5 setup_step. rewrite H6. cbn [negb orb].
  rewrite observe_face_setup_bind.
  set (w1 := world_of (face_setup (setup_camera_is_supported_face_detection svc) w)).
  rewrite storage_foreach_first_internal.
  setup_step.
  rewrite (Z.eqb_sym STORAGE_ERROR_NONE (setup_storage_foreach_device_supported svc)).
  destruct (setup_storage_foreach_device_supported svc =? STORAGE_ERROR_NONE);
    cbn [negb orb].
  2: { setup_end. reflexivity. }
  setup_step.
  rewrite (Z.eqb_sym STORAGE_ERROR_NONE (setup_storage_get_directory svc _).1).
  destruct ((setup_storage_get_directory svc _).1 =? STORAGE_ERROR_NONE); cbn [negb orb].
  - rewrite observe_modify_bind. setup_step.
    destruct (setup_pthread_mutex_init svc =? 0); cbn [negb orb]; [reflexivity |].
    setup_end. reflexivity.
  - rewrite observe_quiet_bind by apply dlog_then_print_quiet. setup_step.
    destruct (setup_pthread_mutex_init svc =? 0); cbn [negb orb]; [reflexivity |].
    setup_end. reflexivity.
Qed.

Lemma face_setup_world (supported : bool) (w : world) :
  world_of (face_setup supported w) =
  if supported
  then set_cam_face
         (if malloc_ok (host w)
          then Some (replicate (Z.to_nat MAXIMUM_FACE_NUMBER) (mk_face 0 0 0 0 0 0))
          else None)
         (set_face_running false w)
  else set_face_running false w.
Proof.
  unfold create_buttons_in_main_window_face_setup. run. destruct supported; reflexivity.
Qed.

Lemma setup_world (svc : setup_service) (w : world) :
  world_of (setup svc w) = (observe (setup svc) w).1.2 /\
  result_of (setup svc w) = (observe (setup svc) w).1.1 /\
  service_calls (trace_of (setup svc w)) = (observe (setup svc) w).2.
Proof. repeat split. Qed.

Lemma setup_goes_on_fields (svc : setup_service) (w : world) :
  setup_reaches_face_detection svc = true ->
  (observe (setup svc) w).1.1 = Done tt /\
  cam_face (observe (setup svc) w).1.2 =
    cam_face (world_of (face_setup (setup_camera_is_supported_face_detection svc) w)) /\
  cam_data (observe (setup svc) w).1.2 =
    cam_data (world_of (face_setup (setup_camera_is_supported_face_detection svc) w)).
Proof.
  intros Hreach. rewrite (setup_goes_on svc w Hreach). cbv zeta.
  destruct (setup_storage_foreach_device_supported svc =? STORAGE_ERROR_NONE),
    (setup_pthread_mutex_init svc =? 0),
    ((setup_storage_get_directory svc (setup_storage_id svc)).1 =? STORAGE_ERROR_NONE);
    repeat split.
Qed.

(** X15. The setup always returns, and it leaves a face buffer exactly when
    its six fallible camera steps succeed, the camera reports face
    detection as supported and [malloc] gives the block; the buffer then
    has [MAXIMUM_FACE_NUMBER] records. In every other case [cam_face] stays
    NULL. *)
Theorem setup_allocates_face_buffer_iff (svc : setup_service) (w : world) :
  cam_face w = None ->
  result_of (setup svc w) = Done tt /\
  (cam_face (world_of (setup svc w)) <> None <->
   setup_reaches_face_detection svc = true /\
   setup_camera_is_supported_face_detection svc = true /\
   malloc_ok (host w) = true) /\
  (forall buf, cam_face (world_of (setup svc w)) = Some buf ->
               length buf = Z.to_nat MAXIMUM_FACE_NUMBER).
Proof.
  intros Hnull. destruct (setup_world svc w) as (-> & -> & _).
  destruct (setup_reaches_face_detection svc) eqn:Hreach.
  - destruct (setup_goes_on_fields svc w Hreach) as (-> & -> & _).
    rewrite face_setup_world. split; [reflexivity |].
    destruct (setup_camera_is_supported_face_detection svc), (malloc_ok (host w));
      simpl; rewrite ?Hnull; split;
      try (split; [intros H; try tauto; congruence | intros (_ & ? & ?); congruence]);
      intros buf Hbuf; try discriminate Hbuf;
      injection Hbuf as <-; apply length_replicate.
  - destruct (setup_stops_early svc w Hreach) as (calls & -> & _). simpl.
    split; [reflexivity |]. rewrite Hnull. split.
    + split; [congruence | intros (? & _); discriminate].
    + intros buf Hbuf. discriminate Hbuf.
Qed.

Ltac no_such_call :=
  repeat match goal with
         | H : In _ (_ ++ _) |- _ => apply in_app_or in H; destruct H as [H | H]
         | H : In _ (_ :: _) |- _ => destruct H as [H | H]
         | H : In _ [] |- _ => destruct H
         | H : (_, _) = (_, _) |- _ => discriminate H
         end.

(** X16. The preview callback is registered before the mutex exists: the
    setup registers it when its six fallible camera steps succeed, and
    calls [pthread_mutex_init] only at its end, when also the enumeration
    of the storages succeeded. *)
Theorem setup_registers_before_mutex_init (svc : setup_service) (w : world) :
  (In ("camera_set_preview_cb", CAMERA_ERROR_NONE) (service_calls (trace_of (setup svc w)))
   <-> setup_reaches_face_detection svc = true) /\
  ((exists r, In ("pthread_mutex_init", r) (service_calls (trace_of (setup svc w))))
   <-> setup_reaches_face_detection svc = true /\
       setup_storage_foreach_device_supported svc = STORAGE_ERROR_NONE).
Proof.
  destruct (setup_world svc w) as (_ & _ & ->).
  destruct (setup_reaches_face_detection svc) eqn:Hreach.
  - rewrite (setup_goes_on svc w Hreach). cbv zeta.
    assert (H6 : setup_camera_set_preview_cb svc = CAMERA_ERROR_NONE).
    { unfold setup_reaches_face_detection in Hreach.
      rewrite !andb_true_iff in Hreach. apply Z.eqb_eq. tauto. }
    assert (Hreg : forall rest,
               In ("camera_set_preview_cb", CAMERA_ERROR_NONE)
                  (setup_camera_calls svc ++ rest)).
    { intros rest. apply in_or_app. left. unfold setup_camera_calls. rewrite H6.
      simpl. tauto. }
    destruct (Z.eqb_spec (setup_storage_foreach_device_supported svc) STORAGE_ERROR_NONE)
      as [Hst | Hst]; cbn [fst snd]; split.
    + split; [reflexivity | intros _; apply Hreg].
    + split; [tauto |]. intros _. eexists. apply in_or_app. right. simpl. tauto.
    + split; [reflexivity | intros _; apply Hreg].
    + split; [| tauto]. intros (r & Hin). exfalso.
      unfold setup_camera_calls in Hin. no_such_call.
  - destruct (setup_stops_early svc w Hreach) as (calls & -> & Hcalls). simpl.
    rewrite Forall_forall in Hcalls. split; split; try discriminate; try tauto.
    + intros Hin. exfalso. rewrite <- list_elem_of_In in Hin.
      apply (Hcalls _ Hin). reflexivity.
    + intros (r & Hin). exfalso. rewrite <- list_elem_of_In in Hin.
      destruct (Hcalls _ Hin) as (Hname & _). apply Hname. reflexivity.
    + intros (? & _). discriminate.
Qed.

(** X17. The camera directory is asked for the first internal storage the
    host enumerates (for the id -1 when there is none), and only after the
    six camera steps and the enumeration of the storages succeeded; the
    global gets the path exactly when that last call succeeds. *)
Theorem setup_camera_directory_of_first_internal (svc : setup_service) (w : world) :
  camera_directory (world_of (setup svc w)) =
  if setup_reaches_face_detection svc
     && (setup_storage_foreach_device_supported svc =? STORAGE_ERROR_NONE)
     && ((setup_storage_get_directory svc
            (default (-1)
               (storage_id <$> head (filter
                                       (fun d => storage_type d = STORAGE_TYPE_INTERNAL)
                                       (setup_storages svc))))).1
         =? STORAGE_ERROR_NONE)
  then Some (setup_storage_get_directory svc
               (default (-1)
                  (storage_id <$> head (filter
                                          (fun d => storage_type d = STORAGE_TYPE_INTERNAL)
                                          (setup_storages svc))))).2
  else camera_directory w.
Proof.
  destruct (setup_world svc w) as (-> & _ & _).
  fold (setup_storage_id svc).
  destruct (setup_reaches_face_detection svc) eqn:Hreach.
  - rewrite (setup_goes_on svc w Hreach). cbv zeta. rewrite face_setup_world.
    destruct (setup_storage_foreach_device_supported svc =? STORAGE_ERROR_NONE),
      (setup_pthread_mutex_init svc =? 0),
      ((setup_storage_get_directory svc (setup_storage_id svc)).1 =? STORAGE_ERROR_NONE),
      (setup_camera_is_supported_face_detection svc); reflexivity.
  - destruct (setup_stops_early svc w Hreach) as (calls & -> & _). reflexivity.
Qed.

End SetupProperties.

(** ** More on [_camera_capturing_cb] *)

(** X18. The callback checks none of its resources: given an image and its
    data, it returns exactly when [malloc] gave the path buffer and [fopen]
    gave a stream; otherwise a NULL pointer is used (by [snprintf], or by
    [fwrite]), with no file created or changed by then. A camera directory
    that was never set does not stop it: the image is then stored under
    the path that starts with "(null)". *)
Theorem capturing_cb_completes_iff (img : camera_image_data_s) (data : list Byte.byte)
    (w : world) :
  image_data img = Some data ->
  image_size img <= Z.of_nat (length data) ->
  (result_of (_camera_capturing_cb (Some img) w) = Done tt <->
   malloc_ok (host w) = true /\ fopen_ok (host w) = true) /\
  (result_of (_camera_capturing_cb (Some img) w) <> Done tt ->
   result_of (_camera_capturing_cb (Some img) w) = Fault /\
   files (world_of (_camera_capturing_cb (Some img) w)) = files w) /\
  (camera_directory w = None ->
   malloc_ok (host w) = true -> fopen_ok (host w) = true ->
   files (world_of (_camera_capturing_cb (Some img) w)) =
   <[snprintf_file_path "(null)" (CInt.wrap (time_ret (host w))) :=
       take (Z.to_nat (image_size img)) data]> (files w)).
Proof.
  intros Hdata Hsize. split; [| split].
  - destruct (malloc_ok (host w)) eqn:Hmalloc, (fopen_ok (host w)) eqn:Hfopen.
    + destruct (capturing_cb_run img data w Hdata Hsize Hmalloc Hfopen) as (t & ->).
      split; [intros _; split; reflexivity | reflexivity].
    + split; [| intros (_ & ?); discriminate].
      destruct img as [d size iw ih]. simpl in Hdata. subst d.
      unfold _camera_capturing_cb, fopen_w_plus, fwrite, fclose. run.
      rewrite Hmalloc, Hfopen. simpl. discriminate.
    + split; [| intros (? & _); discriminate].
      destruct img as [d size iw ih]. simpl in Hdata. subst d.
      unfold _camera_capturing_cb. run. rewrite Hmalloc. simpl. discriminate.
    + split; [| intros (? & _); discriminate].
      destruct img as [d size iw ih]. simpl in Hdata. subst d.
      unfold _camera_capturing_cb. run. rewrite Hmalloc. simpl. discriminate.
  - destruct (malloc_ok (host w)) eqn:Hmalloc, (fopen_ok (host w)) eqn:Hfopen.
    + destruct (capturing_cb_run img data w Hdata Hsize Hmalloc Hfopen) as (t & ->).
      intros Hno. exfalso. apply Hno. reflexivity.
    + intros _. destruct img as [d size iw ih]. simpl in Hdata. subst d.
      unfold _camera_capturing_cb, fopen_w_plus, fwrite, fclose. run.
      rewrite Hmalloc, Hfopen. simpl. split; reflexivity.
    + intros _. destruct img as [d size iw ih]. simpl in Hdata. subst d.
      unfold _camera_capturing_cb. run. rewrite Hmalloc. simpl. split; reflexivity.
    + intros _. destruct img as [d size iw ih]. simpl in Hdata. subst d.
      unfold _camera_capturing_cb. run. rewrite Hmalloc. simpl. split; reflexivity.
  - intros Hdir Hmalloc Hfopen.
    destruct (capturing_cb_run img data w Hdata Hsize Hmalloc Hfopen) as (t & ->).
    rewrite Hdir. reflexivity.
Qed.

(** X19. Two photos taken while [time] returns the same second get the
    same path: the second capture empties the file of the first and the
    file ends with the second image only, while a job is queued for each. *)
Theorem capturing_cb_same_second_overwrites
    (img1 img2 : camera_image_data_s) (data1 data2 : list Byte.byte)
    (dir : string) (w : world) :
  image_data img1 = Some data1 -> image_size img1 <= Z.of_nat (length data1) ->
  image_data img2 = Some data2 -> image_size img2 <= Z.of_nat (length data2) ->
  camera_directory w = Some dir ->
  malloc_ok (host w) = true -> fopen_ok (host w) = true ->
  let file_path := snprintf_file_path dir (CInt.wrap (time_ret (host w))) in
  let w1 := world_of (_camera_capturing_cb (Some img1) w) in
  let w2 := world_of (_camera_capturing_cb (Some img2) w1) in
  result_of (_camera_capturing_cb (Some img2) w1) = Done tt /\
  files w2 = <[file_path := take (Z.to_nat (image_size img2)) data2]> (files w) /\
  jobs w2 = jobs w ++ [file_path; file_path].
Proof.
  intros Hd1 Hs1 Hd2 Hs2 Hdir Hmalloc Hfopen file_path w1 w2.
  destruct (capturing_cb_writes img1 data1 dir w Hd1 Hs1 Hdir Hmalloc Hfopen) as (t1 & Hrun1).
  assert (Hw1 : w1 = set_jobs (jobs w ++ [file_path])
                       (set_files
                          (<[file_path := take (Z.to_nat (image_size img1)) data1]> (files w))
                          w))
    by (subst w1; rewrite Hrun1; reflexivity).
  clearbody w1. subst w1.
  subst w2.
  match goal with |- context [_camera_capturing_cb (Some img2) ?w1] =>
    destruct (capturing_cb_writes img2 data2 dir w1 Hd2 Hs2 Hdir Hmalloc Hfopen)
      as (t2 & Hrun2)
  end.
  rewrite Hrun2. unfold result_of, world_of. simpl.
  split; [reflexivity |]. split.
  - apply insert_insert_eq.
  - rewrite <- app_assoc. reflexivity.
Qed.

(** ** From the setup to a blanked frame *)

Lemma setup_done_state (MAXIMUM_FACE_NUMBER : Z) (svc : setup_service) (w : world) :
  setup_reaches_face_detection svc = true ->
  setup_camera_is_supported_face_detection svc = true ->
  malloc_ok (host w) = true ->
  facelock w = false ->
  let w1 := world_of (create_buttons_in_main_window MAXIMUM_FACE_NUMBER svc w) in
  host w1 = host w /\ facelock w1 = false /\
  cam_face w1 = Some (replicate (Z.to_nat MAXIMUM_FACE_NUMBER) (mk_face 0 0 0 0 0 0)) /\
  face_running (cam_data w1) = false.
Proof.
  intros Hreach Hsup Hmalloc Hl w1. subst w1.
  destruct (setup_world MAXIMUM_FACE_NUMBER svc w) as (-> & _ & _).
  rewrite (setup_goes_on MAXIMUM_FACE_NUMBER svc w Hreach). cbv zeta.
  rewrite face_setup_world, Hsup, Hmalloc.
  destruct (setup_storage_foreach_device_supported svc =? STORAGE_ERROR_NONE),
    (setup_pthread_mutex_init svc =? 0),
    ((setup_storage_get_directory svc (setup_storage_id svc)).1 =? STORAGE_ERROR_NONE);
    simpl; repeat split; try reflexivity; exact Hl.
Qed.

Lemma camera_cb_face_starts (w : world) :
  face_running (cam_data w) = false ->
  camera_start_face_detection_ret (host w) = CAMERA_ERROR_NONE ->
  world_of (__camera_cb_face w) = set_face_running true w.
Proof.
  intros Hidle Hret. unfold __camera_cb_face. run. rewrite Hidle. simpl.
  rewrite Hret. reflexivity.
Qed.

(** X20. The callbacks in the order the application runs them: from
    globals with no buffer, after a setup that gets through, a click on
    "Face Detect" that the service accepts and a report of [count > 0]
    faces whose first rectangle lies in the Y plane of the frame, the
    preview callback returns the next frame with the rectangle of the first
    reported face set to zero and nothing else changed. *)
Theorem session_blanks_reported_face
    (MAXIMUM_FACE_NUMBER : Z) (svc : setup_service) (w : world)
    (f : camera_detected_face_s) (others : list camera_detected_face_s) (count : Z)
    (fuel : nat) (frame : camera_preview_data_s) :
  0 < MAXIMUM_FACE_NUMBER ->
  facelock w = false ->
  setup_reaches_face_detection svc = true ->
  setup_camera_is_supported_face_detection svc = true ->
  malloc_ok (host w) = true ->
  camera_start_face_detection_ret (host w) = CAMERA_ERROR_NONE ->
  0 < count -> count <= Z.of_nat (length (f :: others)) ->
  face_rect_fits f (double_plane_y frame) ->
  (Z.to_nat (Z.max (face_width f) (face_height f)) < fuel)%nat ->
  let w1 := world_of (create_buttons_in_main_window MAXIMUM_FACE_NUMBER svc w) in
  let w2 := world_of (__camera_cb_face w1) in
  let w3 := world_of (__camera_face_detected_cb MAXIMUM_FACE_NUMBER
                        (Some (f :: others)) count w2) in
  exists frame' t,
    __camera_preview_cb fuel frame w3 = (Done frame', w3, t) /\
    blanked (in_face_rect f) frame frame'.
Proof.
  intros HM Hl Hreach Hsup Hmalloc Hstart Hc Hsrc Hfits Hfuel w1 w2 w3.
  destruct (setup_done_state MAXIMUM_FACE_NUMBER svc w Hreach Hsup Hmalloc Hl)
    as (Hhost & Hl1 & Hbuf1 & Hrun1).
  fold w1 in Hhost, Hl1, Hbuf1, Hrun1.
  assert (Hw2 : w2 = set_face_running true w1).
  { subst w2. apply camera_cb_face_starts; [exact Hrun1 |]. rewrite Hhost. exact Hstart. }
  subst w3. rewrite Hw2.
  apply (detected_then_preview MAXIMUM_FACE_NUMBER f others
           (replicate (Z.to_nat MAXIMUM_FACE_NUMBER) (mk_face 0 0 0 0 0 0)));
    try assumption.
  - rewrite length_replicate. lia.
  - reflexivity.
Qed.

(** * The further properties at sample inputs *)

Lemma stop_preview_forgets_face_detection_witness :
  service_calls
    (trace_of (__camera_cb_face
                 (world_of (__camera_cb_preview Scenario.all_ok
                              (Sample.state false None 0)))))
  = [("camera_start_face_detection", 0)].
Proof.
  apply (stop_preview_forgets_face_detection Scenario.all_ok (Sample.state false None 0));
    reflexivity.
Defined.

Lemma preview_cb_idle_witness :
  exists t,
    __camera_preview_cb 0 Sample.frame (Sample.state true (Some [Sample.face_a]) 1)
    = (Done Sample.frame, Sample.state true (Some [Sample.face_a]) 1, t).
Proof.
  apply (preview_cb_idle 0 Sample.frame (Sample.state true (Some [Sample.face_a]) 1)).
  left. reflexivity.
Defined.


Lemma preview_cb_idempotent_witness :
  exists frame' t t',
    __camera_preview_cb 3 Sample.frame (Sample.state false (Some [Sample.face_a]) 1)
    = (Done frame', Sample.state false (Some [Sample.face_a]) 1, t) /\
    __camera_preview_cb 3 frame' (Sample.state false (Some [Sample.face_a]) 1)
    = (Done frame', Sample.state false (Some [Sample.face_a]) 1, t').
Proof.
  apply (preview_cb_idempotent 3 Sample.frame Sample.face_a []
           (Sample.state false (Some [Sample.face_a]) 1));
    try reflexivity; try (simpl; lia).
  exact sample_rect_fits.
Defined.

Lemma face_detected_ignores_bad_report_witness :
  __camera_face_detected_cb 2 (Some [Sample.face_a]) (-1) (Sample.state false None 0)
  = (Done tt, Sample.state false None 0, []) /\
  __camera_face_detected_cb 2 None 3 (Sample.state false None 0)
  = (Done tt, Sample.state false None 0, []).
Proof.
  split.
  - apply (face_detected_ignores_bad_report 2). left. lia.
  - apply (face_detected_ignores_bad_report 2). right. split; [lia | reflexivity].
Defined.

Lemma face_detected_releases_lock_witness :
  facelock (world_of (__camera_face_detected_cb 2 (Some [Sample.face_a]) 1
                        (Sample.state false (Some [Sample.no_face; Sample.no_face]) 0)))
  = false.
Proof.
  apply (face_detected_releases_lock 2 (Some [Sample.face_a]) 1
           (Sample.state false (Some [Sample.no_face; Sample.no_face]) 0)).
  reflexivity.
Defined.

Lemma detected_face_blanked_in_next_frame_witness :
  exists frame' t,
    __camera_preview_cb 3 Sample.frame
      (world_of (__camera_face_detected_cb 2 (Some [Sample.face_a; Sample.face_b]) 2
                   (Sample.state false (Some [Sample.no_face; Sample.no_face]) 0)))
    = (Done frame',
       world_of (__camera_face_detected_cb 2 (Some [Sample.face_a; Sample.face_b]) 2
                   (Sample.state false (Some [Sample.no_face; Sample.no_face]) 0)), t) /\
    blanked (in_face_rect Sample.face_a) Sample.frame frame'.
Proof.
  apply (detected_face_blanked_in_next_frame 2 Sample.face_a [Sample.face_b]
           [Sample.no_face; Sample.no_face] 2
           (Sample.state false (Some [Sample.no_face; Sample.no_face]) 0) 3 Sample.frame);
    try reflexivity; try (simpl; lia).
  exact sample_rect_fits.
Defined.

Lemma setup_allocates_face_buffer_iff_witness :
  cam_face (world_of (create_buttons_in_main_window 2 Scenario.setup_ok Scenario.initial))
  <> None.
Proof.
  apply (setup_allocates_face_buffer_iff 2 Scenario.setup_ok Scenario.initial eq_refl).
  repeat split.
Defined.

Lemma capturing_cb_completes_iff_witness :
  result_of (_camera_capturing_cb (Some Sample.image) Scenario.initial) = Done tt /\
  files (world_of (_camera_capturing_cb (Some Sample.image) Scenario.initial))
    !! "(null)/cam1700000000.jpg" = Some Sample.jpeg.
Proof.
  destruct (capturing_cb_completes_iff Sample.image Sample.jpeg Scenario.initial)
    as (Hdone & _ & Hnull).
  - reflexivity.
  - simpl. lia.
  - split.
    + apply Hdone. split; reflexivity.
    + rewrite Hnull by reflexivity. apply lookup_insert_eq.
Defined.

Lemma capturing_cb_same_second_overwrites_witness :
  files (world_of (_camera_capturing_cb (Some Scenario.image_b)
                     (world_of (_camera_capturing_cb (Some Sample.image)
                                  (Sample.state false None 0)))))
  = <["/opt/usr/media/Camera/cam1700000000.jpg" :=
        [Byte.xff; Byte.xd8; Byte.x00; Byte.xff; Byte.xd9]]> ∅.
Proof.
  apply (capturing_cb_same_second_overwrites Sample.image Scenario.image_b Sample.jpeg
           [Byte.xff; Byte.xd8; Byte.x00; Byte.xff; Byte.xd9] "/opt/usr/media/Camera"
           (Sample.state false None 0));
    try reflexivity; simpl; lia.
Defined.

Lemma session_blanks_reported_face_witness :
  exists frame' t,
    __camera_preview_cb 3 Sample.frame
      (world_of (__camera_face_detected_cb 2 (Some [Sample.face_a]) 1
                   (world_of (__camera_cb_face
                                (world_of (create_buttons_in_main_window 2
                                             Scenario.setup_ok Scenario.initial))))))
    = (Done frame',
       world_of (__camera_face_detected_cb 2 (Some [Sample.face_a]) 1
                   (world_of (__camera_cb_face
                                (world_of (create_buttons_in_main_window 2
                                             Scenario.setup_ok Scenario.initial))))), t) /\
    blanked (in_face_rect Sample.face_a) Sample.frame frame'.
Proof.
  apply (session_blanks_reported_face 2 Scenario.setup_ok Scenario.initial
           Sample.face_a [] 1 3 Sample.frame);
    try reflexivity; try (simpl; lia).
  exact sample_rect_fits.
Defined.

Lemma face_detected_nonzero_mutually_excluded_witness :
  mutually_excluded false
    (trace_of (__camera_face_detected_cb 2 (Some [Sample.face_a; Sample.face_b]) 2
                 (Sample.state false (Some [Sample.no_face; Sample.no_face]) 0)))
  = true.
Proof.
  apply (face_detected_nonzero_mutually_excluded 2). lia.
Defined.
